(** * human-link-map: the client-side graph state of [KnowledgeMap]

    A shallow embedding of the store logic of
    [src/components/knowledge/KnowledgeMap.tsx] (the persons / relations
    state, the filter, the connect flow, the Excel import and export) and of
    the Supabase-backed hook [src/hooks/useKnowledgeMapData.ts].

    Conventions of the embedding.
    - A JavaScript string is a [string]: a sequence of code units below 256
      (the Latin-1 range).  [toLowerCase] and [trim] are the restrictions of
      the ECMAScript functions to that range.
    - A JavaScript number is an element of an abstract type [number] with the
      two observations the code makes of it (truthiness and [String(n)]); the
      code never computes on numbers, it only copies and tests them.
    - [undefined] and [null] are [None]; the code only ever tests them with
      [??], [?.], truthiness and [typeof], which do not tell them apart.
    - A React event handler is the list of state updates it queues, cut at
      each [await]; React applies the updates queued between two awaits in
      one batch. *)

From Stdlib Require Import String Ascii List ZArith Lia Bool DecimalString.
From stdpp Require Import base gmap strings list.
Import ListNotations.
Open Scope string_scope.

(** ** JavaScript values *)

Class JSNumber (number : Type) := {
  (** [!!n]: false for [0], [-0] and [NaN]. *)
  number_truthy : number -> bool;
  (** [String(n)]. *)
  number_to_string : number -> string
}.

(** The values a spreadsheet cell, and hence a field of an imported record,
    can hold. *)
Inductive jsval (number : Type) : Type :=
| JStr (s : string)
| JNum (n : number)
| JBool (b : bool).
Arguments JStr {number} s.
Arguments JNum {number} n.
Arguments JBool {number} b.

Definition nonempty (s : string) : bool :=
  match s with EmptyString => false | String _ _ => true end.

(** [String(v)] *)
Definition toString `{JSNumber number} (v : jsval number) : string :=
  match v with
  | JStr s => s
  | JNum n => number_to_string n
  | JBool true => "true"
  | JBool false => "false"
  end.

(** Truthiness of a defined value. *)
Definition truthy `{JSNumber number} (v : jsval number) : bool :=
  match v with
  | JStr s => nonempty s
  | JNum n => number_truthy n
  | JBool b => b
  end.

(** Truthiness of a possibly undefined value. *)
Definition truthy_opt `{JSNumber number} (o : option (jsval number)) : bool :=
  match o with Some v => truthy v | None => false end.

(** [v === s] for a string [s]. *)
Definition strict_eq_string {number} (v : jsval number) (s : string) : bool :=
  match v with
  | JStr t => String.eqb t s
  | _ => false
  end.

(** ** JavaScript strings *)

(** [String.prototype.toLowerCase] on one code unit of the Latin-1 range:
    [A-Z] and the accented capitals U+00C0..U+00DE (but not the
    multiplication sign U+00D7) move up by 32. *)
Definition toLowerCase_char (c : ascii) : ascii :=
  let n := nat_of_ascii c in
  if ((65 <=? n) && (n <=? 90)
      || (192 <=? n) && (n <=? 222) && negb (n =? 215))%nat
  then ascii_of_nat (n + 32) else c.

Fixpoint toLowerCase (s : string) : string :=
  match s with
  | EmptyString => EmptyString
  | String c s' => String (toLowerCase_char c) (toLowerCase s')
  end.

(** White space and line terminators of the Latin-1 range: TAB, LF, VT, FF,
    CR, SP and NBSP. *)
Definition is_white (c : ascii) : bool :=
  let n := nat_of_ascii c in
  ((9 <=? n) && (n <=? 13) || (n =? 32) || (n =? 160))%nat.

Fixpoint trimStart (s : string) : string :=
  match s with
  | EmptyString => EmptyString
  | String c s' => if is_white c then trimStart s' else s
  end.

Fixpoint trimEnd (s : string) : string :=
  match s with
  | EmptyString => EmptyString
  | String c s' =>
      match trimEnd s' with
      | EmptyString => if is_white c then EmptyString else String c EmptyString
      | t => String c t
      end
  end.

(** [String.prototype.trim] *)
Definition trim (s : string) : string := trimEnd (trimStart s).

(** [hay.startsWith(needle)] *)
Fixpoint startsWith (hay needle : string) : bool :=
  match needle, hay with
  | EmptyString, _ => true
  | String _ _, EmptyString => false
  | String a n', String b h' => Ascii.eqb a b && startsWith h' n'
  end.

(** [hay.includes(needle)] *)
Fixpoint includes (hay needle : string) : bool :=
  startsWith hay needle
  || match hay with
     | EmptyString => false
     | String _ h' => includes h' needle
     end.

(** [xs.join(sep)] on an array of strings. *)
Fixpoint join (sep : string) (xs : list string) : string :=
  match xs with
  | [] => EmptyString
  | [x] => x
  | x :: rest => x +:+ sep +:+ join sep rest
  end.

(** [s.split(sep)] for a separator of one code unit: never empty,
    [[""]] on the empty string. *)
Fixpoint split (sep : ascii) (s : string) : list string :=
  match s with
  | EmptyString => [EmptyString]
  | String c s' =>
      if Ascii.eqb c sep then EmptyString :: split sep s'
      else match split sep s' with
           | h :: t => String c h :: t
           | [] => [String c EmptyString]
           end
  end.

(** [xs.includes(x)] on an array of strings. *)
Definition array_includes (xs : list string) (x : string) : bool :=
  existsb (String.eqb x) xs.

(** Decimal rendering of a length in a template literal. *)
Definition nat_to_string (n : nat) : string :=
  NilZero.string_of_uint (Nat.to_uint n).

(** Code unit U+00E9, the e with acute accent of the French messages. *)
Definition e_acute : string := String (ascii_of_nat 233) EmptyString.

(** ** The data model *)

(** [type Proximity = "fort" | "moyen" | "faible"] *)
Inductive Proximity : Type := fort | moyen | faible.

Definition proximity_name (p : Proximity) : string :=
  match p with fort => "fort" | moyen => "moyen" | faible => "faible" end.

(** A [Proximity] as the runtime value it is. *)
Definition prox {number} (p : Proximity) : jsval number := JStr (proximity_name p).

(** The runtime values that inhabit the type [Proximity]. *)
Definition is_Proximity {number} (v : jsval number) : bool :=
  strict_eq_string v "fort" || strict_eq_string v "moyen" || strict_eq_string v "faible".

(** [allCategories] *)
Definition allCategories : list string :=
  ["Partenaire"; "Investisseur"; "Autre"; "Organisme de formation"; "Advisor"].

(** [proximityLabel] *)
Definition proximityLabel (p : Proximity) : string :=
  match p with fort => "Fort" | moyen => "Moyen" | faible => "Faible" end.

(** [interface Person].  The type annotation of [proximity] is erased at run
    time: the field holds whatever value was stored in it. *)
Module Person.
Record t {number : Type} : Type := mk {
  id : string;
  firstName : string;
  lastName : string;
  company : option string;
  comment : option string;
  proximity : jsval number;
  categories : option (list string);
  position : option (number * number)
}.
Arguments t number : clear implicits.
End Person.

(** [interface Relation] *)
Module Relation.
Record t {number : Type} : Type := mk {
  id : string;
  sourceId : string;
  targetId : string;
  proximity : jsval number
}.
Arguments t number : clear implicits.
End Relation.

(** The part of @xyflow's [Connection] the component reads. *)
Record Connection : Type := {
  source : option string;
  target : option string
}.

(** The argument of a [toast(...)] call. *)
Record Toast : Type := {
  title : string;
  description : string
}.

(** The state cells of the [KnowledgeMap] component. *)
Record State {number : Type} : Type := {
  persons : list (Person.t number);
  relations : list (Relation.t number);
  selectedNode : option (Person.t number);
  selectedEdge : option (Relation.t number);
  pendingConnect : option Connection;
  search : string;
  proximityFilter : string;
  categoryFilter : list string
}.
Arguments State number : clear implicits.

(** The state setters of [useState], in their functional form. *)
Definition setPersons {number} (f : list (Person.t number) -> list (Person.t number))
    (s : State number) : State number :=
  {| persons := f (persons s); relations := relations s;
     selectedNode := selectedNode s; selectedEdge := selectedEdge s;
     pendingConnect := pendingConnect s; search := search s;
     proximityFilter := proximityFilter s; categoryFilter := categoryFilter s |}.

Definition setRelations {number} (f : list (Relation.t number) -> list (Relation.t number))
    (s : State number) : State number :=
  {| persons := persons s; relations := f (relations s);
     selectedNode := selectedNode s; selectedEdge := selectedEdge s;
     pendingConnect := pendingConnect s; search := search s;
     proximityFilter := proximityFilter s; categoryFilter := categoryFilter s |}.

Definition setSelectedNode {number} (v : option (Person.t number))
    (s : State number) : State number :=
  {| persons := persons s; relations := relations s;
     selectedNode := v; selectedEdge := selectedEdge s;
     pendingConnect := pendingConnect s; search := search s;
     proximityFilter := proximityFilter s; categoryFilter := categoryFilter s |}.

Definition setSelectedEdge {number} (v : option (Relation.t number))
    (s : State number) : State number :=
  {| persons := persons s; relations := relations s;
     selectedNode := selectedNode s; selectedEdge := v;
     pendingConnect := pendingConnect s; search := search s;
     proximityFilter := proximityFilter s; categoryFilter := categoryFilter s |}.

Definition setPendingConnect {number} (v : option Connection)
    (s : State number) : State number :=
  {| persons := persons s; relations := relations s;
     selectedNode := selectedNode s; selectedEdge := selectedEdge s;
     pendingConnect := v; search := search s;
     proximityFilter := proximityFilter s; categoryFilter := categoryFilter s |}.

(** ** Event handlers

    A handler queues state updates and raises toasts.  [segments] holds one
    composed update per stretch of code between two awaits: the states an
    observer can see while the handler runs are the states after each
    segment.  The values a handler closes over are read from the state it
    was rendered with, which is the argument of the handler below. *)
Record Handler (S : Type) : Type := {
  segments : list (S -> S);
  toasts : list Toast
}.
Arguments segments {S} h.
Arguments toasts {S} h.

(** The state once the handler has run to completion. *)
Definition run {S} (h : Handler S) (s : S) : S :=
  fold_left (fun acc f => f acc) (segments h) s.

(** The states an observer can see after the handler has started. *)
Fixpoint observe {S} (fs : list (S -> S)) (s : S) : list S :=
  match fs with
  | [] => []
  | f :: rest => f s :: observe rest (f s)
  end.

Definition observable {S} (h : Handler S) (s : S) : list S :=
  observe (segments h) s.

(** [genId(prefix)], given the seven base-36 digits drawn from
    [Math.random()]. *)
Definition genId (prefix rnd : string) : string := prefix +:+ "-" +:+ rnd.

(** [onDeletePerson(id)]: both filters are queued before the await of the
    remote delete, the dialog is closed after it.  The outcome of the remote
    call is not looked at. *)
Definition onDeletePerson {number} (id : string) : Handler (State number) :=
  {| segments :=
       [ (fun s =>
            setRelations
              (List.filter (fun r => negb (String.eqb (Relation.sourceId r) id)
                                     && negb (String.eqb (Relation.targetId r) id)))
              (setPersons
                 (List.filter (fun p => negb (String.eqb (Person.id p) id))) s));
         setSelectedNode None ];
     toasts := [] |}.

(** ** The filter *)

(** The haystack of the search: the fields joined by one space, in lower
    case.  [join] turns the proximity into a string. *)
Definition hay `{JSNumber number} (p : Person.t number) : string :=
  toLowerCase
    (join " "
       ([ Person.firstName p;
          Person.lastName p;
          default "" (Person.company p);
          default "" (Person.comment p);
          toString (Person.proximity p) ]
        ++ default [] (Person.categories p))%list).

(** The callback of [persons.filter] in [filteredPersons], with its early
    returns; [term] is [search.trim().toLowerCase()]. *)
Definition keepPerson `{JSNumber number} (term pf : string) (cf : list string)
    (p : Person.t number) : bool :=
  if negb (String.eqb pf "all") && negb (strict_eq_string (Person.proximity p) pf)
  then false
  else if negb (Nat.eqb (length cf) 0)
          && negb (existsb (fun c => array_includes cf c)
                           (default [] (Person.categories p)))
  then false
  else if negb (nonempty term) then true
  else includes (hay p) term.

Definition filteredPersons `{JSNumber number} (s : State number) : list (Person.t number) :=
  let term := toLowerCase (trim (search s)) in
  List.filter (keepPerson term (proximityFilter s) (categoryFilter s)) (persons s).

(** [proximityEdgeStyle] *)
Record EdgeStyle : Type := {
  stroke : string;
  strokeWidth : Z;
  strokeDasharray : option string
}.

Definition proximityEdgeStyle (p : Proximity) : EdgeStyle :=
  match p with
  | fort => {| stroke := "hsl(var(--primary))"; strokeWidth := 3; strokeDasharray := None |}
  | moyen => {| stroke := "hsl(var(--accent))"; strokeWidth := 2; strokeDasharray := None |}
  | faible => {| stroke := "hsl(var(--muted-foreground))"; strokeWidth := 1;
                 strokeDasharray := Some "6 6" |}
  end.

(** The own key of the two [Record<Proximity, _>] tables a value selects. *)
Definition proximity_of_key (k : string) : option Proximity :=
  if String.eqb k "fort" then Some fort
  else if String.eqb k "moyen" then Some moyen
  else if String.eqb k "faible" then Some faible
  else None.

(** An edge handed to the graph view.  [label] and [style] are [None] when
    the proximity is no key of the tables (a member inherited from
    [Object.prototype], as for the key "constructor", is not modelled). *)
Record Edge : Type := {
  edge_id : string;
  edge_source : string;
  edge_target : string;
  label : option string;
  type : string;
  animated : bool;
  style : option EdgeStyle
}.

Definition toEdge `{JSNumber number} (r : Relation.t number) : Edge :=
  {| edge_id := Relation.id r;
     edge_source := Relation.sourceId r;
     edge_target := Relation.targetId r;
     label := proximityLabel <$> proximity_of_key (toString (Relation.proximity r));
     type := "smoothstep";
     animated := strict_eq_string (Relation.proximity r) "fort";
     style := proximityEdgeStyle <$> proximity_of_key (toString (Relation.proximity r)) |}.

(** The relations [initialEdges] keeps: both endpoints in [keepIds]. *)
Definition visibleRelations `{JSNumber number} (s : State number) : list (Relation.t number) :=
  let keepIds : gset string := list_to_set (map Person.id (filteredPersons s)) in
  List.filter
    (fun r => bool_decide (Relation.sourceId r ∈ keepIds)
              && bool_decide (Relation.targetId r ∈ keepIds))
    (relations s).

Definition initialEdges `{JSNumber number} (s : State number) : list Edge :=
  map toEdge (visibleRelations s).

(** ** The connect flow *)

Definition onConnect {number} (connection : Connection) : Handler (State number) :=
  {| segments := [setPendingConnect (Some connection)]; toasts := [] |}.

(** The relation [commitConnection] builds, unless its guard
    [!pendingConnect?.source || !pendingConnect?.target] returns. *)
Definition newRel {number} (rnd : string) (proximity : Proximity)
    (pending : option Connection) : option (Relation.t number) :=
  match pending with
  | Some {| source := Some src; target := Some tgt |} =>
      if nonempty src && nonempty tgt
      then Some {| Relation.id := genId "rel" rnd;
                   Relation.sourceId := src;
                   Relation.targetId := tgt;
                   Relation.proximity := prox proximity |}
      else None
  | _ => None
  end.

(** [commitConnection(proximity)], rendered with state [s]: the relation is
    appended before the await of the remote insert, the pending connection
    is cleared and the toast raised after it. *)
Definition commitConnection {number} (rnd : string) (proximity : Proximity)
    (s : State number) : Handler (State number) :=
  match newRel rnd proximity (pendingConnect s) with
  | None => {| segments := []; toasts := [] |}
  | Some r =>
      {| segments := [ setRelations (fun prev => (prev ++ [r])%list);
                       setPendingConnect None ];
         toasts := [ {| title := "Lien ajout" +:+ e_acute;
                        description := "Proximit" +:+ e_acute +:+ ": "
                                       +:+ proximityLabel proximity |} ] |}
  end.

(** [onOpenChange] of the proximity dialog: [(o) => !o && setPendingConnect(null)]. *)
Definition onPendingOpenChange {number} (o : bool) : Handler (State number) :=
  {| segments := if o then [] else [setPendingConnect None]; toasts := [] |}.

(** [onChange] of the [RelationSelector] in the edit dialog, which is only
    rendered while [selectedEdge] is set. *)
Definition onChangeRelationProximity {number} (p : Proximity)
    (s : State number) : Handler (State number) :=
  match selectedEdge s with
  | None => {| segments := []; toasts := [] |}
  | Some e =>
      {| segments :=
           [ setRelations
               (map (fun r =>
                       if String.eqb (Relation.id r) (Relation.id e)
                       then {| Relation.id := Relation.id r;
                               Relation.sourceId := Relation.sourceId r;
                               Relation.targetId := Relation.targetId r;
                               Relation.proximity := prox p |}
                       else r)) ];
         toasts := [] |}
  end.

(** ** Excel export and import

    The spreadsheet codec is an external collaborator.  A sheet is the list
    of row objects [json_to_sheet] was given and [sheet_to_json] gives back,
    a workbook maps sheet names to sheets, and writing a workbook to a file
    and reading that file back is taken to be lossless. *)
Abbreviation Row number := (gmap string (jsval number)).
Abbreviation Workbook number := (gmap string (list (gmap string (jsval number)))).

(** [p.position?.x ?? ""] and its [y] twin. *)
Definition coordCell {number} (c : option number) : jsval number :=
  match c with Some n => JNum n | None => JStr "" end.

(** One element of [personRows]. *)
Definition personRow {number} (p : Person.t number) : Row number :=
  <["y" := coordCell (snd <$> Person.position p)]>
  (<["x" := coordCell (fst <$> Person.position p)]>
  (<["categories" := JStr (join "|" (default [] (Person.categories p)))]>
  (<["proximity" := Person.proximity p]>
  (<["comment" := JStr (default "" (Person.comment p))]>
  (<["company" := JStr (default "" (Person.company p))]>
  (<["lastName" := JStr (Person.lastName p)]>
  (<["firstName" := JStr (Person.firstName p)]>
  (<["id" := JStr (Person.id p)]> ∅)))))))).

(** One element of [relationRows]: [{ ...r }]. *)
Definition relationRow {number} (r : Relation.t number) : Row number :=
  <["proximity" := Relation.proximity r]>
  (<["targetId" := JStr (Relation.targetId r)]>
  (<["sourceId" := JStr (Relation.sourceId r)]>
  (<["id" := JStr (Relation.id r)]> ∅))).

(** The workbook [exportExcel] writes. *)
Definition exportExcel {number} (s : State number) : Workbook number :=
  <["Relations" := map relationRow (relations s)]>
  (<["Persons" := map personRow (persons s)]> ∅).

(** [String(row[key] ?? "")] *)
Definition stringOr `{JSNumber number} (row : Row number) (key : string) : string :=
  match row !! key with Some v => toString v | None => "" end.

(** [row[key] ? String(row[key]) : undefined] *)
Definition stringIfTruthy `{JSNumber number} (row : Row number) (key : string) : option string :=
  match row !! key with
  | Some v => if truthy v then Some (toString v) else None
  | None => None
  end.

(** One element of [importedPersons], for a row whose id is settled. *)
Definition importPerson `{JSNumber number} (id : string) (row : Row number) : Person.t number :=
  {| Person.id := id;
     Person.firstName := stringOr row "firstName";
     Person.lastName := stringOr row "lastName";
     Person.company := stringIfTruthy row "company";
     Person.comment := stringIfTruthy row "comment";
     Person.proximity := default (JStr "moyen") (row !! "proximity");
     Person.categories :=
       Some (match stringIfTruthy row "categories" with
             | Some cs => split "|" cs
             | None => []
             end);
     Person.position :=
       match row !! "x", row !! "y" with
       | Some (JNum x), Some (JNum y) => Some (x, y)
       | _, _ => None
       end |}.

Definition importRelation `{JSNumber number} (id : string) (row : Row number) : Relation.t number :=
  {| Relation.id := id;
     Relation.sourceId := stringOr row "sourceId";
     Relation.targetId := stringOr row "targetId";
     Relation.proximity := default (JStr "moyen") (row !! "proximity") |}.

(** [rows.map(...)] of the import: [String(row.id ?? genId(prefix))] draws
    from [Math.random] only for a row without id.  [rnd k] is the [k]-th
    draw, the result carries the number of draws made so far. *)
Fixpoint importRows `{JSNumber number} {A : Type}
    (build : string -> Row number -> A) (prefix : string)
    (rnd : nat -> string) (k : nat) (rows : list (Row number)) : list A * nat :=
  match rows with
  | [] => ([], k)
  | row :: rest =>
      let '(id, k') :=
        match row !! "id" with
        | Some v => (toString v, k)
        | None => (genId prefix (rnd k), S k)
        end in
      let '(recs, k'') := importRows build prefix rnd k' rest in
      (build id row :: recs, k'')
  end.

(** [reader.onload] of [importExcel], given the workbook [XLSX.read]
    returned. *)
Definition importExcel `{JSNumber number} (rnd : nat -> string)
    (wb : Workbook number) : Handler (State number) :=
  match wb !! "Persons", wb !! "Relations" with
  | Some pRows, Some rRows =>
      let '(importedPersons, k) := importRows importPerson "p" rnd 0 pRows in
      let '(importedRelations, _) := importRows importRelation "rel" rnd k rRows in
      {| segments :=
           [ fun s => setRelations (fun _ => importedRelations)
                        (setPersons (fun _ => importedPersons) s) ];
         toasts :=
           [ {| title := "Import r" +:+ e_acute +:+ "ussi";
                description := nat_to_string (length importedPersons) +:+ " personnes, "
                               +:+ nat_to_string (length importedRelations) +:+ " liens" |} ] |}
  | _, _ =>
      {| segments := [];
         toasts := [ {| title := "Fichier invalide";
                        description := "Feuilles attendues: Persons, Relations" |} ] |}
  end.

(** ** The hook [useKnowledgeMapData] *)

Record HookState {number : Type} : Type := {
  h_persons : list (Person.t number);
  h_relations : list (Relation.t number);
  h_user : option string;
  h_loading : bool
}.
Arguments HookState number : clear implicits.

Definition h_setPersons {number} (f : list (Person.t number) -> list (Person.t number))
    (s : HookState number) : HookState number :=
  {| h_persons := f (h_persons s); h_relations := h_relations s;
     h_user := h_user s; h_loading := h_loading s |}.

Definition h_setRelations {number} (f : list (Relation.t number) -> list (Relation.t number))
    (s : HookState number) : HookState number :=
  {| h_persons := h_persons s; h_relations := f (h_relations s);
     h_user := h_user s; h_loading := h_loading s |}.

(** What an awaited Supabase call comes back with: an exception, or a
    [{ data, error }] object. *)
Inductive Reply (number : Type) : Type :=
| Threw
| Replied (data : option (gmap string (jsval number))) (error : bool).
Arguments Threw {number}.
Arguments Replied {number} data error.

Definition errorToast (d : string) : Toast := {| title := "Erreur"; description := d |}.

(** [addRelation(sourceId, targetId, proximity)], given the reply to the
    insert.  [insertedData.id] throws on a missing row and is [undefined] on
    a row without id. *)
Definition addRelation `{JSNumber number} (reply : Reply number)
    (sourceId targetId : string) (proximity : Proximity)
    (s : HookState number) : Handler (HookState number) :=
  match h_user s with
  | None => {| segments := []; toasts := [errorToast ("Utilisateur non connect" +:+ e_acute)] |}
  | Some _ =>
      match reply with
      | Replied _ true =>
          {| segments := []; toasts := [errorToast "Impossible d'ajouter le lien"] |}
      | Replied (Some insertedData) false =>
          let newRelation :=
            {| Relation.id := match insertedData !! "id" with
                              | Some v => toString v
                              | None => "undefined"
                              end;
               Relation.sourceId := sourceId;
               Relation.targetId := targetId;
               Relation.proximity := prox proximity |} in
          {| segments := [ h_setRelations (fun prev => (prev ++ [newRelation])%list) ];
             toasts := [ {| title := "Lien ajout" +:+ e_acute;
                            description := "Proximit" +:+ e_acute +:+ ": "
                                           +:+ proximity_name proximity |} ] |}
      | Replied None false | Threw =>
          {| segments := []; toasts := [errorToast "Erreur lors de l'ajout du lien"] |}
      end
  end.

(** [deletePerson(id)], given the replies to the two deletes of
    [Promise.all]: an error on the relations is logged and ignored. *)
Definition deletePerson {number} (personResult relationsResult : Reply number)
    (id : string) (s : HookState number) : Handler (HookState number) :=
  match h_user s with
  | None => {| segments := []; toasts := [errorToast ("Utilisateur non connect" +:+ e_acute)] |}
  | Some _ =>
      match personResult, relationsResult with
      | Threw, _ | _, Threw =>
          {| segments := []; toasts := [errorToast "Erreur lors de la suppression"] |}
      | Replied _ true, Replied _ _ =>
          {| segments := []; toasts := [errorToast "Impossible de supprimer la personne"] |}
      | Replied _ false, Replied _ _ =>
          {| segments :=
               [ fun s =>
                   h_setRelations
                     (List.filter (fun r => negb (String.eqb (Relation.sourceId r) id)
                                            && negb (String.eqb (Relation.targetId r) id)))
                     (h_setPersons
                        (List.filter (fun p => negb (String.eqb (Person.id p) id))) s) ];
             toasts := [ {| title := "Supprim" +:+ e_acute;
                            description := "Personne et liens supprim" +:+ e_acute +:+ "s" |} ] |}
      end
  end.

(** The replies on which the hook's [addRelation] appends a relation. *)
Definition inserted {number} (reply : Reply number) : Prop :=
  exists row, reply = Replied (Some row) false.

(** ** What the round trip through a workbook keeps *)

(** [s] holds the code unit [c]. *)
Fixpoint has_char (c : ascii) (s : string) : bool :=
  match s with
  | EmptyString => false
  | String a s' => Ascii.eqb a c || has_char c s'
  end.

(** A category tag the export can encode: not empty and free of the
    delimiter.  The five tags of [allCategories] are such. *)
Definition encodable (c : string) : Prop := c <> "" /\ has_char "|" c = false.

(** An optional text as the import reads it back: the empty text is written
    as an empty cell, and an empty cell is read as no text. *)
Definition readBack (o : option string) : option string :=
  match o with
  | Some EmptyString => None
  | other => other
  end.

(** A person as export followed by import gives it back. *)
Definition normalizePerson {number} (p : Person.t number) : Person.t number :=
  {| Person.id := Person.id p;
     Person.firstName := Person.firstName p;
     Person.lastName := Person.lastName p;
     Person.company := readBack (Person.company p);
     Person.comment := readBack (Person.comment p);
     Person.proximity := Person.proximity p;
     Person.categories := Some (default [] (Person.categories p));
     Person.position := Person.position p |}.

(** The spec's equivalence of two persons: the same value in every field,
    the categories compared as sets. *)
Definition same_person {number} (p q : Person.t number) : Prop :=
  Person.id p = Person.id q
  /\ Person.firstName p = Person.firstName q
  /\ Person.lastName p = Person.lastName q
  /\ Person.company p = Person.company q
  /\ Person.comment p = Person.comment q
  /\ Person.proximity p = Person.proximity q
  /\ Person.position p = Person.position q
  /\ (forall c, In c (default [] (Person.categories p))
                <-> In c (default [] (Person.categories q))).

(** ** The filter as the spec words it *)

(** [needle] occurs in [hay]. *)
Definition substring (needle hay : string) : Prop :=
  exists pre post, hay = pre +:+ needle +:+ post.

(** The spec's condition for a person to pass: the proximity filter is
    ["all"] or the person's proximity, the category filter is empty or meets
    the person's categories, and the search term is empty or occurs, case
    aside, in the concatenation of the fields. *)
Definition spec_passes `{JSNumber number} (searchTerm pf : string) (cf : list string)
    (p : Person.t number) : Prop :=
  (pf = "all" \/ Person.proximity p = JStr pf)
  /\ (cf = [] \/ exists c, In c (default [] (Person.categories p)) /\ In c cf)
  /\ (searchTerm = "" \/ substring (toLowerCase searchTerm) (hay p)).

(** ** Referential integrity *)

(** Invariant 1 of the store: both endpoints of every relation are ids of
    persons in the store. *)
Definition referential {number} (s : State number) : Prop :=
  forall r, In r (relations s) ->
    In (Relation.sourceId r) (map Person.id (persons s))
    /\ In (Relation.targetId r) (map Person.id (persons s)).

(** No relation of the store names [id] as an endpoint. *)
Definition unreferenced {number} (id : string) (rs : list (Relation.t number)) : Prop :=
  forall r, In r rs -> Relation.sourceId r <> id /\ Relation.targetId r <> id.

(** ** The other handlers of the component

    A stretch of code that queues no update contributes no segment. *)

Definition setSearch {number} (v : string) (s : State number) : State number :=
  {| persons := persons s; relations := relations s;
     selectedNode := selectedNode s; selectedEdge := selectedEdge s;
     pendingConnect := pendingConnect s; search := v;
     proximityFilter := proximityFilter s; categoryFilter := categoryFilter s |}.

Definition setProximityFilter {number} (v : string) (s : State number) : State number :=
  {| persons := persons s; relations := relations s;
     selectedNode := selectedNode s; selectedEdge := selectedEdge s;
     pendingConnect := pendingConnect s; search := search s;
     proximityFilter := v; categoryFilter := categoryFilter s |}.

Definition setCategoryFilter {number} (f : list string -> list string)
    (s : State number) : State number :=
  {| persons := persons s; relations := relations s;
     selectedNode := selectedNode s; selectedEdge := selectedEdge s;
     pendingConnect := pendingConnect s; search := search s;
     proximityFilter := proximityFilter s; categoryFilter := f (categoryFilter s) |}.

(** An object of type [Omit<Person, "id">].  For an optional key the outer
    [None] says that the object has no such key, [Some v] that it has the
    key with value [v] (which may be [undefined]). *)
Record PersonData {number : Type} : Type := {
  d_firstName : string;
  d_lastName : string;
  d_company : option (option string);
  d_comment : option (option string);
  d_proximity : jsval number;
  d_categories : option (option (list string));
  d_position : option (option (number * number))
}.
Arguments PersonData number : clear implicits.

(** What a key of [{ ...base, ...data }] holds: the value of [data] when
    [data] has the key, that of [base] otherwise. *)
Definition spreadKey {A} (data : option (option A)) (base : option A) : option A :=
  match data with Some v => v | None => base end.

(** [{ id: genId("p"), ...data }] *)
Definition newPerson {number} (id : string) (data : PersonData number) : Person.t number :=
  {| Person.id := id;
     Person.firstName := d_firstName data;
     Person.lastName := d_lastName data;
     Person.company := spreadKey (d_company data) None;
     Person.comment := spreadKey (d_comment data) None;
     Person.proximity := d_proximity data;
     Person.categories := spreadKey (d_categories data) None;
     Person.position := spreadKey (d_position data) None |}.

(** [{ ...p, ...data }] *)
Definition spreadPerson {number} (p : Person.t number) (data : PersonData number)
    : Person.t number :=
  {| Person.id := Person.id p;
     Person.firstName := d_firstName data;
     Person.lastName := d_lastName data;
     Person.company := spreadKey (d_company data) (Person.company p);
     Person.comment := spreadKey (d_comment data) (Person.comment p);
     Person.proximity := d_proximity data;
     Person.categories := spreadKey (d_categories data) (Person.categories p);
     Person.position := spreadKey (d_position data) (Person.position p) |}.

(** [{ ...p, position }] *)
Definition movePerson {number} (p : Person.t number) (pos : number * number)
    : Person.t number :=
  {| Person.id := Person.id p;
     Person.firstName := Person.firstName p;
     Person.lastName := Person.lastName p;
     Person.company := Person.company p;
     Person.comment := Person.comment p;
     Person.proximity := Person.proximity p;
     Person.categories := Person.categories p;
     Person.position := Some pos |}.

(** [onAddPerson(data)]: the person is appended before the await of the
    remote insert, whose outcome is not looked at. *)
Definition onAddPerson {number} (rnd : string) (data : PersonData number)
    : Handler (State number) :=
  {| segments := [ setPersons (fun prev => (prev ++ [newPerson (genId "p" rnd) data])%list) ];
     toasts := [ {| title := "Personne ajout" +:+ e_acute +:+ "e";
                    description := d_firstName data +:+ " " +:+ d_lastName data |} ] |}.

(** [onUpdatePerson(id, data)] *)
Definition onUpdatePerson {number} (id : string) (data : PersonData number)
    : Handler (State number) :=
  {| segments :=
       [ setPersons (map (fun p => if String.eqb (Person.id p) id
                                   then spreadPerson p data else p)) ];
     toasts := [ {| title := "Modifi" +:+ e_acute;
                    description := d_firstName data +:+ " " +:+ d_lastName data |} ] |}.

(** [onNodeDragStop(_, node)], for the id and the position of the node. *)
Definition onNodeDragStop {number} (nodeId : string) (pos : number * number)
    : Handler (State number) :=
  {| segments :=
       [ setPersons (map (fun p => if String.eqb (Person.id p) nodeId
                                   then movePerson p pos else p)) ];
     toasts := [] |}.

(** [onEdgeClick(_, edge)], rendered with state [s]: the first relation with
    the id of the edge is selected, if there is one. *)
Definition onEdgeClick {number} (edgeId : string) (s : State number)
    : Handler (State number) :=
  match List.find (fun rr => String.eqb (Relation.id rr) edgeId) (relations s) with
  | Some r => {| segments := [setSelectedEdge (Some r)]; toasts := [] |}
  | None => {| segments := []; toasts := [] |}
  end.

(** [onNodeClick] of the graph view, rendered with state [s]:
    [setSelectedNode(persons.find(...) ?? null)]. *)
Definition onNodeClick {number} (nodeId : string) (s : State number)
    : Handler (State number) :=
  {| segments :=
       [ setSelectedNode
           (List.find (fun pp => String.eqb (Person.id pp) nodeId) (persons s)) ];
     toasts := [] |}.

(** [onClick] of "Supprimer le lien", rendered with state [s]: the relation
    is removed after the await of the remote delete.  The button is only
    rendered while [selectedEdge] is set. *)
Definition onDeleteRelation {number} (s : State number) : Handler (State number) :=
  match selectedEdge s with
  | None => {| segments := []; toasts := [] |}
  | Some e =>
      {| segments :=
           [ fun s => setSelectedEdge None
                        (setRelations
                           (List.filter
                              (fun r => negb (String.eqb (Relation.id r) (Relation.id e))))
                           s) ];
         toasts := [] |}
  end.

(** [onClick] of the reset button, given the answer to [confirm(...)]. *)
Definition onReset {number} (confirmed : bool) : Handler (State number) :=
  if confirmed
  then {| segments := [ fun s => setRelations (fun _ => []) (setPersons (fun _ => []) s) ];
          toasts := [] |}
  else {| segments := []; toasts := [] |}.

(** The update both groups of check boxes queue:
    [(prev) => (checked ? [...prev, cat] : prev.filter((c) => c !== cat))]. *)
Definition toggle (checked : bool) (cat : string) (prev : list string) : list string :=
  if checked then (prev ++ [cat])%list
  else List.filter (fun c => negb (String.eqb c cat)) prev.

(** [onCheckedChange] of a check box of the category filter. *)
Definition onCategoryFilterChange {number} (cat : string) (checked : bool)
    : Handler (State number) :=
  {| segments := [setCategoryFilter (toggle checked cat)]; toasts := [] |}.

(** ** The person form *)

(** The state cells of [PersonForm]. *)
Record FormState {number : Type} : Type := {
  f_firstName : string;
  f_lastName : string;
  f_company : string;
  f_comment : string;
  f_proximity : jsval number;
  f_categories : list string
}.
Arguments FormState number : clear implicits.

(** The initial values of the cells, from the [initial] prop. *)
Definition initForm {number} (initial : option (Person.t number)) : FormState number :=
  {| f_firstName := default "" (Person.firstName <$> initial);
     f_lastName := default "" (Person.lastName <$> initial);
     f_company := default "" (initial ≫= Person.company);
     f_comment := default "" (initial ≫= Person.comment);
     f_proximity := default (JStr "moyen") (Person.proximity <$> initial);
     f_categories := default [] (initial ≫= Person.categories) |}.

(** The object the form submits:
    [{ firstName, lastName, company, comment, proximity, categories }]. *)
Definition formData {number} (f : FormState number) : PersonData number :=
  {| d_firstName := f_firstName f;
     d_lastName := f_lastName f;
     d_company := Some (Some (f_company f));
     d_comment := Some (Some (f_comment f));
     d_proximity := f_proximity f;
     d_categories := Some (Some (f_categories f));
     d_position := None |}.

(** [onSubmit] of the form element: the [onSubmit] prop is called unless the
    first or the last name is empty. *)
Definition submitForm {number} (onSubmit : PersonData number -> Handler (State number))
    (f : FormState number) : Handler (State number) :=
  if negb (nonempty (f_firstName f)) || negb (nonempty (f_lastName f))
  then {| segments := [];
          toasts := [ {| title := "Champs requis";
                         description := "Pr" +:+ e_acute +:+ "nom et nom sont obligatoires" |} ] |}
  else onSubmit (formData f).

(** [onCheckedChange] of a check box of the form. *)
Definition setCategories {number} (g : list string -> list string)
    (f : FormState number) : FormState number :=
  {| f_firstName := f_firstName f; f_lastName := f_lastName f;
     f_company := f_company f; f_comment := f_comment f;
     f_proximity := f_proximity f; f_categories := g (f_categories f) |}.

(** ** The nodes handed to the graph view *)

(** U+2014 lies outside the code units of the embedding; the label, which
    the code only hands to the view, carries it as its three UTF-8 bytes. *)
Definition em_dash : string :=
  String (ascii_of_nat 226) (String (ascii_of_nat 128) (String (ascii_of_nat 148) "")).

Record NodeStyle : Type := {
  borderColor : string;
  background : string;
  color : string
}.

Record Node {number : Type} : Type := {
  node_id : string;
  node_position : number * number;
  node_label : string;
  node_person : Person.t number;
  node_type : string;
  node_style : NodeStyle
}.
Arguments Node number : clear implicits.

(** One element of [initialNodes], given the position to use when the person
    has none. *)
Definition toNode {number} (fallback : number * number) (p : Person.t number) : Node number :=
  {| node_id := Person.id p;
     node_position := default fallback (Person.position p);
     node_label :=
       Person.firstName p +:+ " " +:+ Person.lastName p
       +:+ match Person.company p with
           | Some c => if nonempty c then " " +:+ em_dash +:+ " " +:+ c else ""
           | None => ""
           end;
     node_person := p;
     node_type := "default";
     node_style :=
       {| borderColor := "transparent";
          background :=
            if strict_eq_string (Person.proximity p) "fort"
            then "hsl(var(--proximity-strong))"
            else if strict_eq_string (Person.proximity p) "moyen"
            then "hsl(var(--proximity-medium))"
            else "hsl(var(--proximity-weak))";
          color := "hsl(var(--proximity-foreground))" |} |}.

(** [filteredPersons.map(...)]: [rndPos k] is the [k]-th position
    [{ x: Math.random() * 400, y: Math.random() * 300 }] drawn, and a person
    with a position draws none. *)
Fixpoint nodesFrom {number} (rndPos : nat -> number * number) (k : nat)
    (ps : list (Person.t number)) : list (Node number) :=
  match ps with
  | [] => []
  | p :: rest =>
      toNode (rndPos k) p
      :: nodesFrom rndPos (match Person.position p with Some _ => k | None => S k end) rest
  end.

Definition initialNodes `{JSNumber number} (rndPos : nat -> number * number)
    (s : State number) : list (Node number) :=
  nodesFrom rndPos 0 (filteredPersons s).

(** ** The other mutators of the hook *)

(** [addPerson(data)], given the reply to the insert: the id is the one the
    server returns. *)
Definition addPerson `{JSNumber number} (reply : Reply number) (data : PersonData number)
    (s : HookState number) : Handler (HookState number) :=
  match h_user s with
  | None => {| segments := []; toasts := [errorToast ("Utilisateur non connect" +:+ e_acute)] |}
  | Some _ =>
      match reply with
      | Replied _ true =>
          {| segments := []; toasts := [errorToast "Impossible d'ajouter la personne"] |}
      | Replied (Some insertedData) false =>
          let added :=
            {| Person.id := match insertedData !! "id" with
                            | Some v => toString v
                            | None => "undefined"
                            end;
               Person.firstName := d_firstName data;
               Person.lastName := d_lastName data;
               Person.company := spreadKey (d_company data) None;
               Person.comment := spreadKey (d_comment data) None;
               Person.proximity := d_proximity data;
               Person.categories := Some (default [] (spreadKey (d_categories data) None));
               Person.position := spreadKey (d_position data) None |} in
          {| segments := [ h_setPersons (fun prev => (prev ++ [added])%list) ];
             toasts := [ {| title := "Personne ajout" +:+ e_acute +:+ "e";
                            description := d_firstName data +:+ " " +:+ d_lastName data |} ] |}
      | Replied None false | Threw =>
          {| segments := []; toasts := [errorToast "Erreur lors de l'ajout"] |}
      end
  end.

(** [updatePerson(id, data)], given the reply to the update. *)
Definition updatePerson {number} (reply : Reply number) (id : string)
    (data : PersonData number) (s : HookState number) : Handler (HookState number) :=
  match h_user s with
  | None => {| segments := []; toasts := [errorToast ("Utilisateur non connect" +:+ e_acute)] |}
  | Some _ =>
      match reply with
      | Threw =>
          {| segments := []; toasts := [errorToast "Erreur lors de la modification"] |}
      | Replied _ true =>
          {| segments := []; toasts := [errorToast "Impossible de modifier la personne"] |}
      | Replied _ false =>
          {| segments :=
               [ h_setPersons (map (fun p => if String.eqb (Person.id p) id
                                             then spreadPerson p data else p)) ];
             toasts := [ {| title := "Modifi" +:+ e_acute;
                            description := d_firstName data +:+ " " +:+ d_lastName data |} ] |}
      end
  end.

(** [updatePersonPosition(id, position)], given the reply to the update:
    every failure is silent. *)
Definition updatePersonPosition {number} (reply : Reply number) (id : string)
    (pos : number * number) (s : HookState number) : Handler (HookState number) :=
  match h_user s, reply with
  | Some _, Replied _ false =>
      {| segments :=
           [ h_setPersons (map (fun p => if String.eqb (Person.id p) id
                                         then movePerson p pos else p)) ];
         toasts := [] |}
  | _, _ => {| segments := []; toasts := [] |}
  end.

(** The callback of [onAuthStateChange] when the session has no user. *)
Definition onSignedOut {number} : Handler (HookState number) :=
  {| segments := [ fun _ => {| h_persons := []; h_relations := [];
                               h_user := None; h_loading := false |} ];
     toasts := [] |}.

(** ** Well-formed stores *)

(** Invariant 2 of the store: no two persons share an id, no two relations
    share an id. *)
Definition uniqueIds {number} (s : State number) : Prop :=
  NoDup (map Person.id (persons s)) /\ NoDup (map Relation.id (relations s)).

(** The number of occurrences of the code unit [c] in [s]. *)
Fixpoint count_char (c : ascii) (s : string) : nat :=
  match s with
  | EmptyString => 0
  | String a s' => (if Ascii.eqb a c then 1 else 0) + count_char c s'
  end.

(** ** Numbers for the examples: integers, printed in decimal

    The examples only use small integers, on which [String(n)] prints the
    plain decimal digits. *)

#[export] Instance Z_JSNumber : JSNumber Z := {|
  number_truthy := fun z => negb (Z.eqb z 0);
  number_to_string := fun z => NilZero.string_of_int (Z.to_int z)
|}.

Definition emptyState : State Z :=
  {| persons := []; relations := []; selectedNode := None; selectedEdge := None;
     pendingConnect := None; search := ""; proximityFilter := "all";
     categoryFilter := [] |}.

Definition marie : Person.t Z :=
  {| Person.id := "p-marie"; Person.firstName := "Marie"; Person.lastName := "Dupont";
     Person.company := Some "Acme Corp"; Person.comment := Some "";
     Person.proximity := prox fort; Person.categories := Some ["Partenaire"; "Advisor"];
     Person.position := Some (120, 45)%Z |}.

Definition jean : Person.t Z :=
  {| Person.id := "p-jean"; Person.firstName := "Jean"; Person.lastName := "Martin";
     Person.company := None; Person.comment := None;
     Person.proximity := prox moyen; Person.categories := Some [];
     Person.position := None |}.

Definition marie_jean : Relation.t Z :=
  {| Relation.id := "rel-1"; Relation.sourceId := "p-marie";
     Relation.targetId := "p-jean"; Relation.proximity := prox moyen |}.

(** Marie, Jean and the relation between them; the edit dialog of the
    relation is open. *)
Definition twoPersons : State Z :=
  setSelectedEdge (Some marie_jean)
    (setRelations (fun _ => [marie_jean])
       (setPersons (fun _ => [marie; jean]) emptyState)).

(** A store whose only relation names two persons that are not in it, as an
    import of a Relations sheet without matching Persons leaves it. *)
Definition danglingState : State Z :=
  setRelations (fun _ => [marie_jean]) emptyState.

(** Two persons of proximity ["fort"], three of another proximity, and three
    relations, one of them between the two; the proximity filter is set to
    ["fort"]. *)
Definition acquaintance (id : string) (p : Proximity) : Person.t Z :=
  {| Person.id := id; Person.firstName := "N"; Person.lastName := id;
     Person.company := None; Person.comment := None;
     Person.proximity := prox p; Person.categories := None;
     Person.position := None |}.

Definition link (id src tgt : string) : Relation.t Z :=
  {| Relation.id := id; Relation.sourceId := src; Relation.targetId := tgt;
     Relation.proximity := prox faible |}.

Definition fivePersons : State Z :=
  {| persons := [ acquaintance "a" fort; acquaintance "b" moyen; acquaintance "c" fort;
                  acquaintance "d" faible; acquaintance "e" moyen ];
     relations := [ link "r1" "a" "b"; link "r2" "c" "a"; link "r3" "d" "e" ];
     selectedNode := None; selectedEdge := None; pendingConnect := None;
     search := ""; proximityFilter := "fort"; categoryFilter := [] |}.

(** What the form submits for Paul Durand, with every field filled in. *)
Definition paulData : PersonData Z :=
  {| d_firstName := "Paul"; d_lastName := "Durand";
     d_company := Some (Some "Initech"); d_comment := Some (Some "");
     d_proximity := prox faible; d_categories := Some (Some ["Investisseur"]);
     d_position := None |}.

(** The state [twoPersons] with a pending connection from Jean to Marie. *)
Definition jeanToMarie : State Z :=
  setPendingConnect (Some {| source := Some "p-jean"; target := Some "p-marie" |}) twoPersons.

(** A person as the edit form gives it back when it is saved untouched: an
    absent company or comment has become the empty text of its input, and
    absent categories the empty list. *)
Definition formFilled {number} (p : Person.t number) : Person.t number :=
  {| Person.id := Person.id p;
     Person.firstName := Person.firstName p;
     Person.lastName := Person.lastName p;
     Person.company := Some (default "" (Person.company p));
     Person.comment := Some (default "" (Person.comment p));
     Person.proximity := Person.proximity p;
     Person.categories := Some (default [] (Person.categories p));
     Person.position := Person.position p |}.

(** The toast of the form for a missing name. *)
Definition requiredToast : Toast :=
  {| title := "Champs requis";
     description := "Pr" +:+ e_acute +:+ "nom et nom sont obligatoires" |}.

(** The add form with the fields of [paulData] typed in. *)
Definition paulForm : FormState Z :=
  {| f_firstName := "Paul"; f_lastName := "Durand"; f_company := "Initech";
     f_comment := ""; f_proximity := prox faible; f_categories := ["Investisseur"] |}.

(** The replies to the two deletes on which the hook's [deletePerson]
    goes on to its local cascade: neither call threw and the delete of the
    person reported no error.  An error of the delete of the relations is
    logged and ignored. *)
Definition deleted {number} (personResult relationsResult : Reply number) : Prop :=
  exists d d' e, personResult = Replied d false /\ relationsResult = Replied d' e.

(** The hook's store with Marie, Jean and their relation, a user signed
    in. *)
Definition signedInHook : HookState Z :=
  {| h_persons := [marie; jean]; h_relations := [marie_jean];
     h_user := Some "u-1"; h_loading := false |}.

(** A Relations sheet with two rows of the same id: the import does not
    look for duplicate ids. *)
Definition jean_marie_twin : Relation.t Z :=
  {| Relation.id := "rel-1"; Relation.sourceId := "p-jean";
     Relation.targetId := "p-marie"; Relation.proximity := prox fort |}.

Definition twinRows : list (Row Z) :=
  [ relationRow marie_jean; relationRow jean_marie_twin ].

Definition twinWorkbook : Workbook Z :=
  <["Relations" := twinRows]> (<["Persons" := [personRow marie; personRow jean]]> ∅).

(** * Properties *)

(** ** Lists and filters *)

Lemma eqb_false_iff (a b : string) : negb (String.eqb a b) = true <-> a <> b.
Proof.
  rewrite negb_true_iff. split.
  - intros E Hab. apply String.eqb_eq in Hab. congruence.
  - intros Hab. destruct (String.eqb a b) eqn:E; [|reflexivity].
    apply String.eqb_eq in E. contradiction.
Qed.

Lemma filter_all_id {A} (f : A -> bool) (l : list A) :
  (forall x, In x l -> f x = true) -> List.filter f l = l.
Proof.
  induction l as [|a l IH]; intros Hall; simpl; [reflexivity|].
  rewrite (Hall a (or_introl eq_refl)), IH; [reflexivity|].
  intros x Hx. apply Hall. now right.
Qed.

Lemma filter_id_all {A} (f : A -> bool) (l : list A) :
  List.filter f l = l -> forall x, In x l -> f x = true.
Proof.
  intros E x Hx. rewrite <- E in Hx. now apply List.filter_In in Hx.
Qed.

Lemma endpoints_kept {number} (id : string) (r : Relation.t number) :
  negb (String.eqb (Relation.sourceId r) id) && negb (String.eqb (Relation.targetId r) id) = true
  <-> Relation.sourceId r <> id /\ Relation.targetId r <> id.
Proof. now rewrite andb_true_iff, !eqb_false_iff. Qed.

Lemma referential_unreferenced {number} (id : string) (s : State number) :
  referential s ->
  (forall p, In p (persons s) -> Person.id p <> id) ->
  unreferenced id (relations s).
Proof.
  intros Href Habs r Hr. destruct (Href r Hr) as [Hs Ht].
  apply in_map_iff in Hs as (p & Ep & Hp). apply in_map_iff in Ht as (q & Eq & Hq).
  rewrite <- Ep, <- Eq. split; [now apply Habs | now apply Habs].
Qed.

(** ** Deleting a person *)

(** The cascade of the component.  [onDeletePerson id] leaves exactly the persons whose id is not [id]
    and exactly the relations neither of whose endpoints is [id]; and no
    state an observer can see once the handler has started holds a person
    with that id or a relation naming it. *)
Lemma onDeletePerson_cascade {number} (id : string) (s : State number) :
  (forall p, In p (persons (run (onDeletePerson id) s))
             <-> In p (persons s) /\ Person.id p <> id)
  /\ (forall r, In r (relations (run (onDeletePerson id) s))
                <-> In r (relations s)
                    /\ Relation.sourceId r <> id /\ Relation.targetId r <> id)
  /\ (forall o, In o (observable (onDeletePerson id) s) ->
        (forall p, In p (persons o) -> Person.id p <> id)
        /\ unreferenced id (relations o)).
Proof.
  split; [|split].
  - intros p. cbn. now rewrite List.filter_In, eqb_false_iff.
  - intros r. cbn. now rewrite List.filter_In, endpoints_kept.
  - intros o Ho. cbn in Ho.
    assert (Hgoal : forall o',
      persons o' = List.filter (fun p => negb (String.eqb (Person.id p) id)) (persons s) ->
      relations o' = List.filter
         (fun r => negb (String.eqb (Relation.sourceId r) id)
                   && negb (String.eqb (Relation.targetId r) id)) (relations s) ->
      (forall p, In p (persons o') -> Person.id p <> id) /\ unreferenced id (relations o')).
    { intros o' Ep Er. split.
      - intros p Hp. rewrite Ep in Hp. apply List.filter_In in Hp as [_ Hp].
        now apply eqb_false_iff.
      - intros r Hr. rewrite Er in Hr. apply List.filter_In in Hr as [_ Hr].
        now apply endpoints_kept. }
    destruct Ho as [<-|[<-|[]]]; now apply Hgoal.
Qed.

(** C1, as amended.  In the component, [onDeletePerson id] always removes
    the persons with id [id] and every relation that names [id], and no
    state an observer can see once the handler has started holds such a
    person or relation.  The hook's [deletePerson id] does the same cascade,
    in one update and with the toast of success, when a user is signed in,
    neither remote delete threw and the delete of the person reported no
    error; otherwise it changes nothing, queues no update and raises one
    error toast. *)
Theorem deletePerson_cascades_or_refuses {number} (id : string) (s : State number)
    (pr rr : Reply number) (hs : HookState number) :
  ((forall p, In p (persons (run (onDeletePerson id) s))
              <-> In p (persons s) /\ Person.id p <> id)
   /\ (forall r, In r (relations (run (onDeletePerson id) s))
                 <-> In r (relations s)
                     /\ Relation.sourceId r <> id /\ Relation.targetId r <> id)
   /\ (forall o, In o (observable (onDeletePerson id) s) ->
         (forall p, In p (persons o) -> Person.id p <> id)
         /\ unreferenced id (relations o)))
  /\ (h_user hs <> None -> deleted pr rr ->
      (forall p, In p (h_persons (run (deletePerson pr rr id hs) hs))
                 <-> In p (h_persons hs) /\ Person.id p <> id)
      /\ (forall r, In r (h_relations (run (deletePerson pr rr id hs) hs))
                    <-> In r (h_relations hs)
                        /\ Relation.sourceId r <> id /\ Relation.targetId r <> id)
      /\ observable (deletePerson pr rr id hs) hs = [run (deletePerson pr rr id hs) hs]
      /\ toasts (deletePerson pr rr id hs)
         = [ {| title := "Supprim" +:+ e_acute;
                description := "Personne et liens supprim" +:+ e_acute +:+ "s" |} ])
  /\ (h_user hs = None \/ ~ deleted pr rr ->
      run (deletePerson pr rr id hs) hs = hs
      /\ observable (deletePerson pr rr id hs) hs = []
      /\ exists d, toasts (deletePerson pr rr id hs) = [errorToast d]).
Proof.
  split; [apply onDeletePerson_cascade|]. split.
  - intros Hu (d & d' & e & -> & ->). unfold deletePerson.
    destruct (h_user hs) as [u|]; [|contradiction]. cbn.
    split; [|split; [|split; reflexivity]].
    + intros p. now rewrite List.filter_In, eqb_false_iff.
    + intros r. now rewrite List.filter_In, endpoints_kept.
  - intros Hrefuse. unfold deletePerson.
    destruct (h_user hs) as [u|]; [|cbn; eauto].
    destruct Hrefuse as [Hu | Hnot]; [discriminate|].
    destruct pr as [|d [|]], rr as [|d' e']; cbn; eauto.
    exfalso. apply Hnot. now exists d, d', e'.
Qed.

Lemma deletePerson_cascades_or_refuses_witness :
  In jean (h_persons (run (deletePerson (Replied None false) (Replied None true) "p-marie"
                             signedInHook) signedInHook))
  /\ ~ In marie (h_persons (run (deletePerson (Replied None false) (Replied None true)
                                   "p-marie" signedInHook) signedInHook))
  /\ ~ In marie_jean (h_relations (run (deletePerson (Replied None false) (Replied None true)
                                          "p-marie" signedInHook) signedInHook))
  /\ run (deletePerson Threw (Replied None false) "p-marie" signedInHook) signedInHook
     = signedInHook.
Proof.
  destruct (deletePerson_cascades_or_refuses "p-marie" twoPersons
              (Replied None false) (Replied None true) signedInHook)
    as (_ & Hok & _).
  destruct (deletePerson_cascades_or_refuses "p-marie" twoPersons
              Threw (Replied None false) signedInHook)
    as (_ & _ & Hno).
  destruct Hok as (Hp & Hr & _);
    [discriminate | now exists None, None, true |].
  destruct Hno as (Hsame & _);
    [right; intros (d & d' & e & E & _); discriminate|].
  split; [|split; [|split; [|exact Hsame]]].
  - apply Hp. split; [now right; left | discriminate].
  - intros Hin. apply Hp in Hin as [_ Hne]. now apply Hne.
  - intros Hin. apply Hr in Hin as (_ & Hne & _). now apply Hne.
Defined.

(** C1, as stated, fails on the hook: Marie is in the store and a user is
    signed in, but the remote delete of the person comes back with an
    error, or throws, and [deletePerson] removes neither Marie nor the
    relation that names her. *)
Lemma deletePerson_refused_removes_nothing :
  In marie (h_persons signedInHook)
  /\ Person.id marie = "p-marie"
  /\ In marie (h_persons (run (deletePerson (Replied None true) (Replied None false)
                                 "p-marie" signedInHook) signedInHook))
  /\ In marie_jean (h_relations (run (deletePerson (Replied None true) (Replied None false)
                                        "p-marie" signedInHook) signedInHook))
  /\ In marie (h_persons (run (deletePerson Threw Threw "p-marie" signedInHook)
                              signedInHook)).
Proof. cbn. repeat split; now left. Qed.

(** C9, as amended.  When no person of the store has id [id],
    [onDeletePerson id] leaves the persons as they are, and leaves the
    relations as they are exactly when none of them names [id] as an
    endpoint, which is the case in a store that satisfies referential
    integrity; it raises no toast. *)
Theorem onDeletePerson_absent {number} (id : string) (s : State number) :
  (forall p, In p (persons s) -> Person.id p <> id) ->
  persons (run (onDeletePerson id) s) = persons s
  /\ (relations (run (onDeletePerson id) s) = relations s
      <-> unreferenced id (relations s))
  /\ (referential s -> relations (run (onDeletePerson id) s) = relations s)
  /\ toasts (onDeletePerson (number := number) id) = [].
Proof.
  intros Habs.
  assert (Hiff : relations (run (onDeletePerson id) s) = relations s
                 <-> unreferenced id (relations s)).
  { cbn. split.
    - intros E r Hr. apply endpoints_kept. revert r Hr. now apply filter_id_all.
    - intros Hun. apply filter_all_id. intros r Hr. now apply endpoints_kept, Hun. }
  split; [|split; [|split]].
  - cbn. apply filter_all_id. intros p Hp. now apply eqb_false_iff, Habs.
  - exact Hiff.
  - intros Href. apply Hiff. now apply referential_unreferenced.
  - reflexivity.
Qed.

Lemma onDeletePerson_absent_witness :
  persons (run (onDeletePerson "p-paul") twoPersons) = persons twoPersons
  /\ relations (run (onDeletePerson "p-paul") twoPersons) = relations twoPersons.
Proof.
  destruct (onDeletePerson_absent "p-paul" twoPersons) as (Hp & Hr & _).
  - intros p [<-|[<-|[]]]; discriminate.
  - split; [exact Hp|]. apply Hr.
    intros r [<-|[]]; split; discriminate.
Defined.

(** C9, as stated, fails: nobody in [danglingState] has id ["p-marie"], yet
    deleting that id removes the relation that names it. *)
Lemma onDeletePerson_absent_changes_relations :
  (forall p, In p (persons danglingState) -> Person.id p <> "p-marie")
  /\ relations (run (onDeletePerson "p-marie") danglingState) = []
  /\ relations (run (onDeletePerson "p-marie") danglingState) <> relations danglingState.
Proof.
  split; [intros p []|]. split; [reflexivity|discriminate].
Qed.

(** ** Changing the proximity of a relation *)

(** C10, as amended.  With the edit dialog open on relation [e], choosing
    proximity [p] leaves the persons and the number of relations as they
    are; at every index the relation keeps its id, source and target; every
    relation whose id is that of [e] gets proximity [p] and every relation
    with another id is left as it is.  When the ids of the relations are
    unique, at most one relation has the id of [e], so at most that one
    relation is rewritten. *)
Theorem onChangeRelationProximity_frame {number} (p : Proximity)
    (s : State number) (e : Relation.t number) :
  selectedEdge s = Some e ->
  persons (run (onChangeRelationProximity p s) s) = persons s
  /\ length (relations (run (onChangeRelationProximity p s) s)) = length (relations s)
  /\ (forall (i : nat) (r : Relation.t number),
       relations s !! i = Some r ->
       exists r', relations (run (onChangeRelationProximity p s) s) !! i = Some r'
                  /\ Relation.id r' = Relation.id r
                  /\ Relation.sourceId r' = Relation.sourceId r
                  /\ Relation.targetId r' = Relation.targetId r
                  /\ (Relation.id r = Relation.id e -> Relation.proximity r' = prox p)
                  /\ (Relation.id r <> Relation.id e -> r' = r))
  /\ (NoDup (map Relation.id (relations s)) ->
      forall (i j : nat) (r1 r2 : Relation.t number),
        relations s !! i = Some r1 -> relations s !! j = Some r2 ->
        Relation.id r1 = Relation.id e -> Relation.id r2 = Relation.id e ->
        i = j /\ r1 = r2).
Proof.
  intros Hsel. unfold onChangeRelationProximity. rewrite Hsel. cbn.
  split; [reflexivity|]. split; [apply length_map|]. split.
  - intros i r Hi. rewrite list_lookup_fmap, Hi. cbn.
    eexists. split; [reflexivity|].
    destruct (String.eqb (Relation.id r) (Relation.id e)) eqn:E; cbn.
    + repeat split; try reflexivity. intros Hne. apply String.eqb_eq in E. contradiction.
    + repeat split; try reflexivity. intros Heq. apply String.eqb_neq in E. contradiction.
  - intros Hnd i j r1 r2 Hi Hj E1 E2.
    assert (Eij : i = j).
    { apply (NoDup_lookup (map Relation.id (relations s)) i j (Relation.id e) Hnd).
      - now rewrite list_lookup_fmap, Hi, <- E1.
      - now rewrite list_lookup_fmap, Hj, <- E2. }
    split; [exact Eij|]. subst j. congruence.
Qed.

Lemma onChangeRelationProximity_frame_witness :
  persons (run (onChangeRelationProximity faible twoPersons) twoPersons) = [marie; jean]
  /\ exists r', relations (run (onChangeRelationProximity faible twoPersons) twoPersons) !! 0%nat
                = Some r'
                /\ Relation.sourceId r' = "p-marie"
                /\ Relation.proximity r' = prox faible.
Proof.
  destruct (onChangeRelationProximity_frame faible twoPersons marie_jean eq_refl)
    as (Hp & _ & Hr & _).
  split; [exact Hp|].
  destruct (Hr 0%nat marie_jean eq_refl) as (r' & E & _ & Hs & _ & Hpx & _).
  exists r'. split; [exact E|]. split; [exact Hs|]. now apply Hpx.
Defined.

(** C10, as stated, fails when two relations share an id, which an import
    allows.  The workbook holds two relations with id "rel-1"; a click on
    the edge "rel-1" opens the dialog on the first; choosing "faible" then
    rewrites the second as well, which is another relation with other
    endpoints. *)
Lemma proximity_change_rewrites_every_twin :
  let s1 := run (importExcel (fun _ => "0000000") twinWorkbook) emptyState in
  let s2 := run (onEdgeClick "rel-1" s1) s1 in
  let s3 := run (onChangeRelationProximity faible s2) s2 in
  relations s2 = [marie_jean; jean_marie_twin]
  /\ selectedEdge s2 = Some marie_jean
  /\ jean_marie_twin <> marie_jean
  /\ relations s3 !! 1%nat
     = Some {| Relation.id := "rel-1"; Relation.sourceId := "p-jean";
               Relation.targetId := "p-marie"; Relation.proximity := prox faible |}
  /\ relations s3 !! 1%nat <> relations s2 !! 1%nat.
Proof.
  vm_compute. repeat split; discriminate.
Qed.

(** ** The connect flow *)

Lemma nonempty_true (x : string) : nonempty x = true <-> x <> "".
Proof. destruct x; cbn; split; congruence. Qed.

Lemma newRel_Some {number} (rnd : string) (p : Proximity) (src tgt : string) :
  src <> "" -> tgt <> "" ->
  newRel (number := number) rnd p (Some {| source := Some src; target := Some tgt |})
  = Some {| Relation.id := genId "rel" rnd; Relation.sourceId := src;
            Relation.targetId := tgt; Relation.proximity := prox p |}.
Proof.
  intros Hs Ht. cbn.
  apply nonempty_true in Hs, Ht. now rewrite Hs, Ht.
Qed.

(** The guard of [commitConnection] lets through exactly a pending
    connection whose source and target are both non-empty strings. *)
Lemma newRel_None {number} (rnd : string) (p : Proximity) (pc : option Connection) :
  newRel (number := number) rnd p pc = None
  <-> forall src tgt, pc = Some {| source := Some src; target := Some tgt |} ->
                      src = "" \/ tgt = "".
Proof.
  split.
  - intros E src tgt ->. cbn in E.
    destruct src, tgt; cbn in E; try discriminate; auto.
  - intros Hg. destruct pc as [[[src|] [tgt|]]|]; cbn; try reflexivity.
    destruct (Hg src tgt eq_refl) as [-> | ->]; [reflexivity|].
    now rewrite andb_false_r.
Qed.

(** C8, as amended.  A connect gesture with source [src] and target [tgt]
    records the pair and creates no relation.  When [src] and [tgt] are not
    empty, choosing proximity [p] then appends the one relation from [src]
    to [tgt] with proximity [p] and clears the pair; closing the dialog
    instead clears the pair and creates no relation. *)
Theorem connect_then_choose_or_cancel {number} (rnd : string) (p : Proximity)
    (src tgt : string) (s : State number) :
  src <> "" -> tgt <> "" ->
  let c := {| source := Some src; target := Some tgt |} in
  let s1 := run (onConnect c) s in
  let s2 := run (commitConnection rnd p s1) s1 in
  let s3 := run (onPendingOpenChange false) s1 in
  (pendingConnect s1 = Some c /\ relations s1 = relations s /\ persons s1 = persons s)
  /\ (relations s2
      = (relations s ++ [ {| Relation.id := genId "rel" rnd; Relation.sourceId := src;
                             Relation.targetId := tgt; Relation.proximity := prox p |} ])%list
      /\ pendingConnect s2 = None /\ persons s2 = persons s)
  /\ (relations s3 = relations s /\ pendingConnect s3 = None /\ persons s3 = persons s).
Proof.
  intros Hs Ht c s1 s2 s3.
  split; [now cbn|]. split; [|now cbn].
  subst s2. unfold commitConnection.
  replace (pendingConnect s1) with (Some c) by reflexivity.
  subst c. rewrite (newRel_Some rnd p src tgt Hs Ht). now cbn.
Qed.

Lemma connect_then_choose_or_cancel_witness :
  let s1 := run (onConnect {| source := Some "p-jean"; target := Some "p-marie" |}) twoPersons in
  length (relations (run (commitConnection "k3x9q2a" fort s1) s1)) = 2%nat
  /\ pendingConnect (run (commitConnection "k3x9q2a" fort s1) s1) = None
  /\ relations (run (onPendingOpenChange false) s1) = [marie_jean].
Proof.
  destruct (connect_then_choose_or_cancel "k3x9q2a" fort "p-jean" "p-marie" twoPersons)
    as (_ & (Hr & Hp & _) & (Hc & _)); [discriminate | discriminate |].
  cbv zeta in *. split; [now rewrite Hr|]. split; [exact Hp | exact Hc].
Defined.

(** C8, as stated, fails for an empty source id: the guard of
    [commitConnection] returns, so no relation is created and the pending
    pair stays. *)
Lemma commit_with_empty_source_does_nothing :
  let c := {| source := Some ""; target := Some "p-jean" |} in
  let s1 := run (onConnect c) twoPersons in
  pendingConnect s1 = Some c
  /\ relations (run (commitConnection "k3x9q2a" fort s1) s1) = relations twoPersons
  /\ pendingConnect (run (commitConnection "k3x9q2a" fort s1) s1) <> None.
Proof. cbn. repeat split; discriminate. Qed.

(** ** Creating a relation *)

(** C2, as amended.  Neither [commitConnection] nor the hook's [addRelation]
    looks at the persons of the store.  [commitConnection] leaves the
    relations as they are exactly when no connection is pending or its
    source or target is missing or empty, and then changes nothing and
    raises no toast; otherwise it appends the relation, whoever its
    endpoints are.  [addRelation] leaves the relations as they are exactly
    when nobody is signed in or the remote insert did not come back with a
    row and no error, and then raises one error toast; otherwise it appends
    the relation with the endpoints and the proximity it was given and the
    id of the row that came back, and raises the toast of success. *)
Theorem addRelation_without_endpoint_check `{JSNumber number}
    (rnd : string) (p : Proximity) (s : State number)
    (reply : Reply number) (sourceId targetId : string) (hs : HookState number) :
  let guard := forall src tgt,
      pendingConnect s = Some {| source := Some src; target := Some tgt |} ->
      src = "" \/ tgt = "" in
  (relations (run (commitConnection rnd p s) s) = relations s <-> guard)
  /\ (guard -> run (commitConnection rnd p s) s = s /\ toasts (commitConnection rnd p s) = [])
  /\ (forall src tgt,
        pendingConnect s = Some {| source := Some src; target := Some tgt |} ->
        src <> "" -> tgt <> "" ->
        relations (run (commitConnection rnd p s) s)
        = (relations s ++ [ {| Relation.id := genId "rel" rnd; Relation.sourceId := src;
                               Relation.targetId := tgt; Relation.proximity := prox p |} ])%list)
  /\ (h_relations (run (addRelation reply sourceId targetId p hs) hs) = h_relations hs
      <-> h_user hs = None \/ ~ inserted reply)
  /\ (h_user hs = None \/ ~ inserted reply ->
      run (addRelation reply sourceId targetId p hs) hs = hs
      /\ exists d, toasts (addRelation reply sourceId targetId p hs) = [errorToast d])
  /\ (forall row, h_user hs <> None -> reply = Replied (Some row) false ->
      h_relations (run (addRelation reply sourceId targetId p hs) hs)
      = (h_relations hs
         ++ [ {| Relation.id := match row !! "id" with
                                | Some v => toString v
                                | None => "undefined"
                                end;
                 Relation.sourceId := sourceId;
                 Relation.targetId := targetId;
                 Relation.proximity := prox p |} ])%list
      /\ h_persons (run (addRelation reply sourceId targetId p hs) hs) = h_persons hs
      /\ toasts (addRelation reply sourceId targetId p hs)
         = [ {| title := "Lien ajout" +:+ e_acute;
                description := "Proximit" +:+ e_acute +:+ ": " +:+ proximity_name p |} ]).
Proof.
  intros guard.
  assert (Happ : forall (A : Type) (l : list A) (x : A), (l ++ [x])%list <> l).
  { intros A l x E. apply (f_equal (@length A)) in E. rewrite length_app in E. cbn in E. lia. }
  assert (Hg : guard <-> newRel (number := number) rnd p (pendingConnect s) = None).
  { symmetry. apply newRel_None. }
  assert (Hhook : h_user hs = None \/ ~ inserted reply ->
      run (addRelation reply sourceId targetId p hs) hs = hs
      /\ exists d, toasts (addRelation reply sourceId targetId p hs) = [errorToast d]).
  { unfold addRelation. intros [-> | Hni]; [cbn; eauto|].
    destruct (h_user hs); [|cbn; eauto].
    destruct reply as [|[row|] [|]]; cbn; eauto.
    exfalso. apply Hni. now exists row. }
  split; [|split; [|split; [|split; [|split]]]].
  - rewrite Hg. unfold commitConnection.
    destruct (newRel rnd p (pendingConnect s)) as [r|]; cbn.
    + split; [intros E; now apply Happ in E | discriminate].
    + tauto.
  - intros G. apply Hg in G. unfold commitConnection. now rewrite G.
  - intros src tgt E Hs Ht. unfold commitConnection.
    now rewrite E, (newRel_Some rnd p src tgt Hs Ht).
  - split; [|intros G; now destruct (Hhook G) as [-> _]].
    unfold addRelation. destruct (h_user hs) as [u|]; [|auto].
    destruct reply as [|[row|] [|]]; cbn; intros E;
      try (right; intros [row' Hrow]; discriminate).
    now apply Happ in E.
  - exact Hhook.
  - intros row Hu ->. unfold addRelation.
    destruct (h_user hs) as [u|]; [|contradiction]. now cbn.
Qed.

Lemma addRelation_without_endpoint_check_witness :
  let s := setPendingConnect (Some {| source := Some "p-x"; target := Some "p-y" |}) emptyState in
  relations (run (commitConnection "k3x9q2a" moyen s) s)
  = [ {| Relation.id := "rel-k3x9q2a"; Relation.sourceId := "p-x";
         Relation.targetId := "p-y"; Relation.proximity := prox moyen |} ]
  /\ run (commitConnection "k3x9q2a" moyen emptyState) emptyState = emptyState
  /\ h_relations (run (addRelation (Replied (Some (<["id" := JStr "r-77"]> ∅)) false)
                         "p-x" "p-y" fort signedInHook) signedInHook)
     = [ marie_jean;
         {| Relation.id := "r-77"; Relation.sourceId := "p-x";
            Relation.targetId := "p-y"; Relation.proximity := prox fort |} ].
Proof.
  intros s.
  destruct (addRelation_without_endpoint_check "k3x9q2a" moyen s Threw "a" "b"
              {| h_persons := []; h_relations := []; h_user := None; h_loading := false |})
    as (_ & _ & Happ & _).
  destruct (addRelation_without_endpoint_check "k3x9q2a" moyen emptyState Threw "a" "b"
              {| h_persons := []; h_relations := []; h_user := None; h_loading := false |})
    as (_ & Hnone & _).
  destruct (addRelation_without_endpoint_check "k3x9q2a" fort emptyState
              (Replied (Some (<["id" := JStr "r-77"]> ∅)) false) "p-x" "p-y" signedInHook)
    as (_ & _ & _ & _ & _ & Hhook).
  split; [|split].
  - apply (Happ "p-x" "p-y" eq_refl); discriminate.
  - apply Hnone. intros src tgt E. discriminate E.
  - destruct (Hhook (<["id" := JStr "r-77"]> ∅)) as (Hr & _); [discriminate | reflexivity |].
    exact Hr.
Defined.

(** C2, as stated, fails: the store has no person at all, the pending
    connection names two unknown ids, and [commitConnection] appends the
    relation and raises the success toast. *)
Lemma commitConnection_accepts_unknown_endpoints :
  let s := setPendingConnect (Some {| source := Some "p-x"; target := Some "p-y" |}) emptyState in
  persons s = []
  /\ relations (run (commitConnection "k3x9q2a" moyen s) s)
     = [ {| Relation.id := "rel-k3x9q2a"; Relation.sourceId := "p-x";
            Relation.targetId := "p-y"; Relation.proximity := prox moyen |} ]
  /\ relations (run (commitConnection "k3x9q2a" moyen s) s) <> relations s
  /\ toasts (commitConnection "k3x9q2a" moyen s)
     = [ {| title := "Lien ajout" +:+ e_acute;
            description := "Proximit" +:+ e_acute +:+ ": Moyen" |} ].
Proof. cbn. repeat split. discriminate. Qed.

(** ** Strings *)

Example trim_example : trim (String (ascii_of_nat 9) "  Acme  Corp ") = "Acme  Corp".
Proof. reflexivity. Qed.

Example toLowerCase_example :
  toLowerCase ("Acme " +:+ String (ascii_of_nat 201) "T" +:+ String (ascii_of_nat 215) "9")
  = "acme " +:+ e_acute +:+ "t" +:+ String (ascii_of_nat 215) "9".
Proof. reflexivity. Qed.

Example join_split_example :
  join "|" ["Partenaire"; "Advisor"] = "Partenaire|Advisor"
  /\ split "|" "Partenaire|Advisor" = ["Partenaire"; "Advisor"]
  /\ split "|" "" = [""]
  /\ split "|" "a||b|" = ["a"; ""; "b"; ""].
Proof. repeat split. Qed.

Example includes_example :
  includes "marie dupont" "e d" = true
  /\ includes "marie dupont" "" = true
  /\ includes "marie dupont" "ed" = false.
Proof. repeat split. Qed.

Example genId_example : genId "rel" "k3x9q2a" = "rel-k3x9q2a".
Proof. reflexivity. Qed.

Lemma all_categories_encodable : Forall encodable allCategories.
Proof. repeat constructor; discriminate. Qed.

Lemma append_cons (c : ascii) (s t : string) : String c s +:+ t = String c (s +:+ t).
Proof. reflexivity. Qed.

Lemma append_nil_l (t : string) : "" +:+ t = t.
Proof. reflexivity. Qed.

Lemma startsWith_spec (needle hay : string) :
  startsWith hay needle = true <-> exists post, hay = needle +:+ post.
Proof.
  revert hay. induction needle as [|a n IH]; intros hay.
  - split; [intros _; now exists hay | now destruct hay].
  - destruct hay as [|b h]; cbn.
    + split; [discriminate | intros [post E]; discriminate].
    + rewrite andb_true_iff, IH. split.
      * intros [Eab [post ->]]. apply Ascii.eqb_eq in Eab as ->. now exists post.
      * intros [post E]. rewrite append_cons in E. injection E as -> ->.
        split; [apply Ascii.eqb_refl | now exists post].
Qed.

Lemma includes_spec (needle hay : string) :
  includes hay needle = true <-> substring needle hay.
Proof.
  unfold substring. induction hay as [|b h IH].
  - cbn [includes]. rewrite orb_false_r, startsWith_spec. split.
    + intros [post E]. now exists "", post.
    + intros (pre & post & E). destruct pre; [now exists post|discriminate].
  - cbn [includes]. rewrite orb_true_iff, IH, startsWith_spec. split.
    + intros [[post E] | (pre & post & E)].
      * now exists "", post.
      * exists (String b pre), post. now rewrite append_cons, E.
    + intros (pre & post & E). destruct pre as [|c pre].
      * left. now exists post.
      * right. rewrite append_cons in E. injection E as -> ->. now exists pre, post.
Qed.

Lemma array_includes_In (xs : list string) (x : string) :
  array_includes xs x = true <-> In x xs.
Proof.
  unfold array_includes. rewrite existsb_exists. split.
  - intros (y & Hy & E). apply String.eqb_eq in E. now subst.
  - intros Hx. exists x. split; [exact Hx | apply String.eqb_refl].
Qed.

Lemma strict_eq_string_spec {number} (v : jsval number) (s : string) :
  strict_eq_string v s = true <-> v = JStr s.
Proof.
  destruct v; cbn; try (split; discriminate).
  rewrite String.eqb_eq. split; congruence.
Qed.

(** ** The filter *)

(** The callback of the filter, condition by condition. *)
Lemma keepPerson_spec `{JSNumber number} (term pf : string) (cf : list string)
    (p : Person.t number) :
  keepPerson term pf cf p = true
  <-> (pf = "all" \/ Person.proximity p = JStr pf)
      /\ (cf = [] \/ exists c, In c (default [] (Person.categories p)) /\ In c cf)
      /\ (term = "" \/ substring term (hay p)).
Proof.
  unfold keepPerson.
  assert (Hpf : negb (String.eqb pf "all") && negb (strict_eq_string (Person.proximity p) pf) = false
                <-> pf = "all" \/ Person.proximity p = JStr pf).
  { rewrite andb_false_iff, !negb_false_iff, String.eqb_eq, strict_eq_string_spec. tauto. }
  assert (Hcf : negb (Nat.eqb (length cf) 0)
                && negb (existsb (fun c => array_includes cf c) (default [] (Person.categories p)))
                = false
                <-> cf = [] \/ exists c, In c (default [] (Person.categories p)) /\ In c cf).
  { rewrite andb_false_iff, !negb_false_iff, Nat.eqb_eq, existsb_exists.
    split; intros [E | (c & Hc & Hin)].
    - left. now destruct cf.
    - right. exists c. split; [exact Hc | now apply array_includes_In].
    - left. now subst.
    - right. exists c. split; [exact Hc | now apply array_includes_In]. }
  assert (Hterm : (if negb (nonempty term) then true else includes (hay p) term) = true
                  <-> term = "" \/ substring term (hay p)).
  { destruct term as [|a t]; cbn [nonempty negb]; [tauto|].
    rewrite includes_spec. split; [tauto | intros [E | E]; [discriminate | exact E]]. }
  destruct (negb (String.eqb pf "all") && negb (strict_eq_string (Person.proximity p) pf)).
  { split; [discriminate|]. intros (Hp & _). destruct Hpf as [_ Hpf]. now apply Hpf in Hp. }
  destruct (negb (Nat.eqb (length cf) 0)
            && negb (existsb (fun c => array_includes cf c) (default [] (Person.categories p)))).
  { split; [discriminate|]. intros (_ & Hc & _). destruct Hcf as [_ Hcf]. now apply Hcf in Hc. }
  rewrite Hterm. split; [intros Ht | tauto].
  split; [now apply Hpf | split; [now apply Hcf | exact Ht]].
Qed.

(** C5, as amended.  A person is in [filteredPersons] exactly when it is in
    the store, the proximity filter is ["all"] or equals its proximity, the
    category filter is empty or shares a tag with its categories, and the
    search, trimmed and in lower case, is empty or occurs in the person's
    fields joined by single spaces and put in lower case. *)
Theorem filteredPersons_spec `{JSNumber number} (s : State number) (p : Person.t number) :
  In p (filteredPersons s)
  <-> In p (persons s)
      /\ (proximityFilter s = "all" \/ Person.proximity p = JStr (proximityFilter s))
      /\ (categoryFilter s = []
          \/ exists c, In c (default [] (Person.categories p)) /\ In c (categoryFilter s))
      /\ (toLowerCase (trim (search s)) = ""
          \/ substring (toLowerCase (trim (search s))) (hay p)).
Proof.
  unfold filteredPersons. cbv zeta. now rewrite List.filter_In, keepPerson_spec.
Qed.

(** The spec's scenario: the search ["acme"] finds the person whose company
    is ["Acme Corp"]. *)
Lemma filteredPersons_spec_witness :
  In marie (filteredPersons
              {| persons := [marie; jean]; relations := [marie_jean];
                 selectedNode := None; selectedEdge := None; pendingConnect := None;
                 search := "acme"; proximityFilter := "all"; categoryFilter := [] |}).
Proof.
  apply filteredPersons_spec. cbn [persons proximityFilter categoryFilter search].
  split; [now left|]. split; [now left|]. split; [now left|].
  right. now exists "marie dupont ", " corp  fort partenaire advisor".
Defined.

(** C5, as stated, fails when the search carries surrounding white space:
    the search [" m"] keeps Marie, whose fields in lower case do not hold a
    space followed by [m]. *)
Lemma search_is_trimmed_before_matching :
  let s := {| persons := [marie]; relations := [];
              selectedNode := None; selectedEdge := None; pendingConnect := None;
              search := " m"; proximityFilter := "all"; categoryFilter := [] |} in
  In marie (filteredPersons s)
  /\ ~ spec_passes (search s) (proximityFilter s) (categoryFilter s) marie.
Proof.
  split; [now left|].
  intros (_ & _ & [E | Hsub]); [discriminate|].
  apply includes_spec in Hsub. vm_compute in Hsub. discriminate.
Qed.

(** ** Visible relations *)

Lemma keepIds_spec {number} (ps : list (Person.t number)) (x : string) :
  bool_decide (x ∈ (list_to_set (map Person.id ps) : gset string)) = true
  <-> exists p, In p ps /\ Person.id p = x.
Proof.
  rewrite bool_decide_eq_true, elem_of_list_to_set, list_elem_of_In, in_map_iff.
  split; intros (p & A & B); exists p; tauto.
Qed.

(** C6. A relation is kept for display exactly when it is in the store and
    its source and its target are both ids of persons that pass the filter;
    the edges shown are the images of those relations.  The filter is a
    function of the state that returns edges: it has no store to write to,
    and every relation it hides is still in [relations s]. *)
Theorem visibleRelations_spec `{JSNumber number} (s : State number) :
  (forall r, In r (visibleRelations s)
             <-> In r (relations s)
                 /\ (exists p, In p (filteredPersons s) /\ Person.id p = Relation.sourceId r)
                 /\ (exists q, In q (filteredPersons s) /\ Person.id q = Relation.targetId r))
  /\ (forall e, In e (initialEdges s)
                <-> exists r, In r (relations s) /\ e = toEdge r
                    /\ (exists p, In p (filteredPersons s) /\ Person.id p = Relation.sourceId r)
                    /\ (exists q, In q (filteredPersons s) /\ Person.id q = Relation.targetId r))
  /\ (length (initialEdges s) <= length (relations s))%nat.
Proof.
  assert (Hvis : forall r, In r (visibleRelations s)
             <-> In r (relations s)
                 /\ (exists p, In p (filteredPersons s) /\ Person.id p = Relation.sourceId r)
                 /\ (exists q, In q (filteredPersons s) /\ Person.id q = Relation.targetId r)).
  { intros r. unfold visibleRelations. cbv zeta.
    now rewrite List.filter_In, andb_true_iff, !keepIds_spec. }
  split; [exact Hvis|]. split.
  - intros e. unfold initialEdges. rewrite in_map_iff. split.
    + intros (r & <- & Hr). exists r. apply Hvis in Hr. tauto.
    + intros (r & Hr & -> & Hp & Hq). exists r. split; [reflexivity|]. apply Hvis. tauto.
  - unfold initialEdges, visibleRelations. rewrite length_map. apply List.filter_length_le.
Qed.

(** ** Import *)

(** C4. When the workbook lacks the sheet "Persons" or the sheet
    "Relations", [importExcel] queues no state update at all, so the state
    is left as it was and no intermediate state exists, and it raises the
    toast that names the two expected sheets. *)
Theorem importExcel_missing_sheet `{JSNumber number} (rnd : nat -> string)
    (wb : Workbook number) (s : State number) :
  wb !! "Persons" = None \/ wb !! "Relations" = None ->
  run (importExcel rnd wb) s = s
  /\ observable (importExcel rnd wb) s = []
  /\ toasts (importExcel rnd wb)
     = [ {| title := "Fichier invalide";
            description := "Feuilles attendues: Persons, Relations" |} ].
Proof.
  intros Hmiss. unfold importExcel.
  destruct (wb !! "Persons") as [pRows|], (wb !! "Relations") as [rRows|];
    try (now repeat split).
  destruct Hmiss; discriminate.
Qed.

Lemma importExcel_missing_sheet_witness :
  let wb : Workbook Z := <["Persons" := [personRow jean]]> ∅ in
  run (importExcel (fun _ => "0000000") wb) twoPersons = twoPersons
  /\ toasts (importExcel (fun _ => "0000000") wb)
     = [ {| title := "Fichier invalide";
            description := "Feuilles attendues: Persons, Relations" |} ].
Proof.
  intros wb.
  destruct (importExcel_missing_sheet (fun _ => "0000000") wb twoPersons) as (Hs & _ & Ht).
  - right. reflexivity.
  - split; [exact Hs | exact Ht].
Defined.

(** The proximity of an imported record is the cell of the row when there is
    one, whatever it holds, and ["moyen"] when there is none. *)
Lemma import_proximity `{JSNumber number} (id : string) (row : Row number) :
  (row !! "proximity" = None ->
     Person.proximity (importPerson id row) = prox moyen
     /\ Relation.proximity (importRelation id row) = prox moyen)
  /\ (forall v, row !! "proximity" = Some v ->
        Person.proximity (importPerson id row) = v
        /\ Relation.proximity (importRelation id row) = v).
Proof.
  split.
  - intros E. cbn. now rewrite E.
  - intros v E. cbn. now rewrite E.
Qed.

(** C7 at its failing input.  A Persons row and a Relations row whose
    proximity cell holds ["proche"] are imported with proximity ["proche"],
    which is none of the three literals; rows without the cell get
    ["moyen"]. *)
Theorem importExcel_keeps_unrecognised_proximity :
  let badPerson : Row Z :=
    <["proximity" := JStr "proche"]>
    (<["lastName" := JStr "Durand"]> (<["firstName" := JStr "Paul"]> (<["id" := JStr "p-1"]> ∅))) in
  let badRelation : Row Z :=
    <["proximity" := JStr "proche"]>
    (<["targetId" := JStr "p-1"]> (<["sourceId" := JStr "p-1"]> (<["id" := JStr "rel-1"]> ∅))) in
  let bare : Row Z := <["id" := JStr "x"]> ∅ in
  let wb : Workbook Z :=
    <["Relations" := [badRelation; bare]]> (<["Persons" := [badPerson; bare]]> ∅) in
  let s' := run (importExcel (fun _ => "0000000") wb) emptyState in
  map Person.proximity (persons s') = [JStr "proche"; JStr "moyen"]
  /\ map Relation.proximity (relations s') = [JStr "proche"; JStr "moyen"]
  /\ is_Proximity (JStr "proche" : jsval Z) = false.
Proof. vm_compute. repeat split. Qed.

(** ** Export followed by import *)

Lemma split_without_sep (c : ascii) (x : string) :
  has_char c x = false -> split c x = [x].
Proof.
  induction x as [|a x IH]; cbn; [reflexivity|].
  intros E. apply orb_false_iff in E as [Ea Ex]. now rewrite Ea, (IH Ex).
Qed.

Lemma split_append_sep (c : ascii) (x rest : string) :
  has_char c x = false -> split c (x +:+ String c rest) = x :: split c rest.
Proof.
  induction x as [|a x IH]; intros E.
  - rewrite append_nil_l. cbn [split]. now rewrite Ascii.eqb_refl.
  - cbn in E. apply orb_false_iff in E as [Ea Ex].
    rewrite append_cons. cbn [split]. now rewrite Ea, (IH Ex).
Qed.

Lemma split_join (c : ascii) (xs : list string) :
  xs <> [] -> Forall (fun x => has_char c x = false) xs ->
  split c (join (String c "") xs) = xs.
Proof.
  induction xs as [|x [|y rest] IH]; intros Hne Hall; [contradiction| |].
  - cbn. apply split_without_sep. now inversion Hall.
  - inversion Hall as [|? ? Hx Hrest]; subst.
    change (join (String c "") (x :: y :: rest))
      with (x +:+ String c (join (String c "") (y :: rest))).
    rewrite (split_append_sep c x _ Hx). f_equal. now apply IH.
Qed.

Lemma join_nonempty (sep x : string) (rest : list string) :
  x <> "" -> nonempty (join sep (x :: rest)) = true.
Proof. intros Hx. destruct x; [contradiction|]. now destruct rest. Qed.

Lemma readBack_cell `{JSNumber number} (row : Row number) (key : string) (o : option string) :
  row !! key = Some (JStr (default "" o)) -> stringIfTruthy row key = readBack o.
Proof. intros E. unfold stringIfTruthy. rewrite E. now destruct o as [[|a t]|]. Qed.

(** A row written by the export is read back as the person it came from, up
    to [normalizePerson]. *)
Lemma importPerson_personRow `{JSNumber number} (p : Person.t number) :
  Forall encodable (default [] (Person.categories p)) ->
  importPerson (Person.id p) (personRow p) = normalizePerson p.
Proof.
  intros Hcats. unfold importPerson, normalizePerson.
  f_equal.
  - apply (readBack_cell (personRow p) "company"). reflexivity.
  - apply (readBack_cell (personRow p) "comment"). reflexivity.
  - f_equal. unfold stringIfTruthy.
    change (personRow p !! "categories")
      with (Some (JStr (number := number) (join "|" (default [] (Person.categories p))))).
    destruct (default [] (Person.categories p)) as [|x rest] eqn:E; [reflexivity|].
    cbn [truthy toString].
    inversion Hcats as [|? ? [Hx _] _]; subst.
    rewrite (join_nonempty "|" x rest Hx). apply (split_join "|"); [discriminate|].
    eapply List.Forall_impl; [|exact Hcats]. now intros c [_ Hc].
  - change (personRow p !! "x") with (Some (coordCell (fst <$> Person.position p))).
    change (personRow p !! "y") with (Some (coordCell (snd <$> Person.position p))).
    now destruct (Person.position p) as [[x y]|].
Qed.

Lemma importRelation_relationRow `{JSNumber number} (r : Relation.t number) :
  importRelation (Relation.id r) (relationRow r) = r.
Proof. now destruct r. Qed.

(** Rows written by the export all carry their id: the import draws no
    random id for them. *)
Lemma importRows_exported `{JSNumber number} {A B : Type}
    (build : string -> Row number -> B) (toRow : A -> Row number) (idOf : A -> string)
    (back : A -> B) (prefix : string) (rnd : nat -> string) (k : nat) (xs : list A) :
  (forall x, In x xs -> toRow x !! "id" = Some (JStr (idOf x))
                        /\ build (idOf x) (toRow x) = back x) ->
  importRows build prefix rnd k (map toRow xs) = (map back xs, k).
Proof.
  induction xs as [|x xs IH]; intros Hrows; [reflexivity|].
  cbn [map importRows].
  destruct (Hrows x (or_introl eq_refl)) as [Eid Eback].
  rewrite Eid. cbn [toString]. rewrite IH, Eback; [reflexivity|].
  intros y Hy. apply Hrows. now right.
Qed.

(** C3, as amended.  Take the file written by the export to be read back as
    the same rows, and every category tag of the store to be non-empty and
    free of "|".  Then importing the export of a store gives back its
    relations unchanged and its persons in the same number and order, each
    with the same id, names, proximity, position and categories in the same
    order, and with the same company and comment except that an empty text
    comes back as absent; absent categories come back as the empty list. *)
Theorem export_then_import `{JSNumber number} (rnd : nat -> string) (s : State number) :
  (forall p, In p (persons s) -> Forall encodable (default [] (Person.categories p))) ->
  persons (run (importExcel rnd (exportExcel s)) s) = map normalizePerson (persons s)
  /\ relations (run (importExcel rnd (exportExcel s)) s) = relations s
  /\ length (persons (run (importExcel rnd (exportExcel s)) s)) = length (persons s).
Proof.
  intros Hcats.
  assert (Hrun : persons (run (importExcel rnd (exportExcel s)) s) = map normalizePerson (persons s)
                 /\ relations (run (importExcel rnd (exportExcel s)) s) = relations s).
  { pose proof (importRows_exported importPerson personRow Person.id normalizePerson
                  "p" rnd 0 (persons s)) as HP.
    pose proof (importRows_exported importRelation relationRow Relation.id (fun r => r)
                  "rel" rnd 0 (relations s)) as HR.
    unfold importExcel.
    change (exportExcel s !! "Persons") with (Some (map personRow (persons s))).
    change (exportExcel s !! "Relations") with (Some (map relationRow (relations s))).
    cbv beta iota.
    rewrite HP.
    2:{ intros p Hp. split; [reflexivity|]. now apply importPerson_personRow, Hcats. }
    rewrite HR.
    2:{ intros r _. split; [reflexivity|]. apply importRelation_relationRow. }
    cbn. now rewrite map_id. }
  destruct Hrun as [Hp Hr]. split; [exact Hp|]. split; [exact Hr|].
  now rewrite Hp, length_map.
Qed.

Lemma export_then_import_witness :
  persons (run (importExcel (fun _ => "0000000") (exportExcel twoPersons)) twoPersons)
  = [normalizePerson marie; normalizePerson jean]
  /\ relations (run (importExcel (fun _ => "0000000") (exportExcel twoPersons)) twoPersons)
     = [marie_jean].
Proof.
  destruct (export_then_import (fun _ => "0000000") twoPersons) as (Hp & Hr & _).
  - intros p [<-|[<-|[]]]; cbn; repeat constructor; discriminate.
  - split; [exact Hp | exact Hr].
Defined.

(** C3, as stated, fails: Marie's comment is the empty text, and after
    export and import she has no comment. *)
Lemma export_then_import_drops_empty_text :
  let s' := run (importExcel (fun _ => "0000000") (exportExcel twoPersons)) twoPersons in
  Person.comment marie = Some ""
  /\ (Person.comment <$> persons s' !! 0%nat) = Some None
  /\ ~ Forall2 same_person (persons twoPersons) (persons s').
Proof.
  split; [reflexivity|]. split; [reflexivity|].
  intros Hall. vm_compute in Hall.
  inversion Hall as [|? ? ? ? Hsame _]; subst.
  destruct Hsame as (_ & _ & _ & _ & Hcomment & _). discriminate.
Qed.

(** ** The scenarios of the spec *)

(** The proximity filter ["fort"] on two persons of that proximity and
    three others shows those two and the one relation between them, and the
    store still holds its three relations. *)
Example filter_fort_scenario :
  map Person.id (filteredPersons fivePersons) = ["a"; "c"]
  /\ map edge_id (initialEdges fivePersons) = ["r2"]
  /\ length (relations fivePersons) = 3%nat.
Proof. vm_compute. repeat split. Qed.

(** Marie and Jean are connected with proximity ["moyen"]: one relation from
    Marie to Jean.  Marie is then deleted: Jean is left, and no relation. *)
Example connect_then_delete_scenario :
  let s0 := setPersons (fun _ => [marie; jean]) emptyState in
  let s1 := run (onConnect {| source := Some "p-marie"; target := Some "p-jean" |}) s0 in
  let s2 := run (commitConnection "k3x9q2a" moyen s1) s1 in
  let s3 := run (onDeletePerson "p-marie") s2 in
  relations s2 = [ {| Relation.id := "rel-k3x9q2a"; Relation.sourceId := "p-marie";
                      Relation.targetId := "p-jean"; Relation.proximity := prox moyen |} ]
  /\ persons s3 = [jean] /\ relations s3 = [].
Proof. vm_compute. repeat split. Qed.

(** * Further properties of the component and of the hook *)

(** ** Invariants of the store *)

Lemma NoDup_map_filter {A B} (f : A -> B) (g : A -> bool) (l : list A) :
  NoDup (map f l) -> NoDup (map f (List.filter g l)).
Proof.
  induction l as [|a l IH]; cbn; [trivial|].
  intros Hnd. apply NoDup_cons in Hnd as [Ha Hl].
  destruct (g a); cbn; [|now apply IH].
  apply NoDup_cons. split; [|now apply IH].
  intros Hin. apply Ha. apply list_elem_of_In in Hin. apply list_elem_of_In.
  apply in_map_iff in Hin as (x & Ex & Hx). apply List.filter_In in Hx as [Hx _].
  apply in_map_iff. now exists x.
Qed.

Lemma map_id_update {A} (key : A -> string) (upd : A -> A) (c : A -> bool) (l : list A) :
  (forall x, key (upd x) = key x) ->
  map key (map (fun x => if c x then upd x else x) l) = map key l.
Proof.
  intros Hk. rewrite map_map. apply map_ext. intros x. now destruct (c x).
Qed.

Lemma update_absent {A} (key : A -> string) (upd : A -> A) (id : string) (l : list A) :
  (forall x, In x l -> key x <> id) ->
  map (fun x => if String.eqb (key x) id then upd x else x) l = l.
Proof.
  intros Habs. rewrite <- (map_id l) at 2. apply map_ext_in. intros x Hx.
  destruct (String.eqb (key x) id) eqn:E; [|reflexivity].
  apply String.eqb_eq in E. now apply Habs in Hx.
Qed.

Lemma NoDup_snoc {A} (l : list A) (x : A) :
  NoDup (l ++ [x]) <-> NoDup l /\ ~ In x l.
Proof.
  rewrite NoDup_app. split.
  - intros (Hl & Hx & _). split; [exact Hl|]. intros Hin.
    apply list_elem_of_In in Hin. apply (Hx x Hin). now left.
  - intros (Hl & Hx). split; [exact Hl|]. split; [|apply NoDup_singleton].
    intros y Hy Hy'. apply list_elem_of_In in Hy. apply list_elem_of_In in Hy'.
    destruct Hy' as [<-|[]]. contradiction.
Qed.

(** X1. The cascade of [onDeletePerson] keeps the store well formed: if
    every relation joined two persons of the store before, it does so after,
    and ids that were unique stay unique. *)
Theorem onDeletePerson_keeps_invariants {number} (id : string) (s : State number) :
  (referential s -> referential (run (onDeletePerson id) s))
  /\ (uniqueIds s -> uniqueIds (run (onDeletePerson id) s)).
Proof.
  split.
  - intros Href r Hr. cbn in Hr. apply List.filter_In in Hr as [Hr Hkeep].
    apply endpoints_kept in Hkeep as [Hs Ht]. destruct (Href r Hr) as [Is It].
    cbn. split.
    + apply in_map_iff in Is as (p & E & Hp). apply in_map_iff. exists p.
      split; [exact E|]. apply List.filter_In. split; [exact Hp|].
      apply eqb_false_iff. congruence.
    + apply in_map_iff in It as (p & E & Hp). apply in_map_iff. exists p.
      split; [exact E|]. apply List.filter_In. split; [exact Hp|].
      apply eqb_false_iff. congruence.
  - intros [Hp Hr]. split; cbn; now apply NoDup_map_filter.
Qed.

(** X2. [onAddPerson] appends one person and leaves the relations alone; it
    never breaks referential integrity; and since it does not look for a
    collision, the ids stay unique exactly when they were unique and the id
    drawn by [genId] is not yet the id of a person. *)
Theorem onAddPerson_invariants {number} (rnd : string) (data : PersonData number)
    (s : State number) :
  length (persons (run (onAddPerson rnd data) s)) = S (length (persons s))
  /\ relations (run (onAddPerson rnd data) s) = relations s
  /\ (referential s -> referential (run (onAddPerson rnd data) s))
  /\ (uniqueIds (run (onAddPerson rnd data) s)
      <-> uniqueIds s /\ ~ In (genId "p" rnd) (map Person.id (persons s))).
Proof.
  split; [cbn; rewrite length_app; cbn; lia|]. split; [reflexivity|]. split.
  - intros Href r Hr. destruct (Href r Hr) as [Is It]. cbn.
    rewrite map_app, !in_app_iff. tauto.
  - unfold uniqueIds. cbn. rewrite map_app. cbn. rewrite NoDup_snoc. tauto.
Qed.

(** X3. Adding a person and then deleting the id it was given restores the
    persons and the relations of the store, provided that id was neither the
    id of a person nor an endpoint of a relation. *)
Theorem onAddPerson_then_onDeletePerson {number} (rnd : string)
    (data : PersonData number) (s : State number) :
  ~ In (genId "p" rnd) (map Person.id (persons s)) ->
  unreferenced (genId "p" rnd) (relations s) ->
  persons (run (onDeletePerson (genId "p" rnd)) (run (onAddPerson rnd data) s)) = persons s
  /\ relations (run (onDeletePerson (genId "p" rnd)) (run (onAddPerson rnd data) s))
     = relations s.
Proof.
  intros Hfresh Hun. cbn. split.
  - rewrite List.filter_app. cbn. rewrite String.eqb_refl. cbn. rewrite app_nil_r.
    apply filter_all_id. intros p Hp. apply eqb_false_iff. intros E.
    apply Hfresh. apply in_map_iff. now exists p.
  - apply filter_all_id. intros r Hr. now apply endpoints_kept, Hun.
Qed.

Lemma onAddPerson_then_onDeletePerson_witness :
  persons (run (onDeletePerson "p-k3x9q2a") (run (onAddPerson "k3x9q2a" paulData) twoPersons))
  = [marie; jean]
  /\ relations (run (onDeletePerson "p-k3x9q2a") (run (onAddPerson "k3x9q2a" paulData) twoPersons))
     = [marie_jean].
Proof.
  apply (onAddPerson_then_onDeletePerson "k3x9q2a" paulData twoPersons).
  - intros [E|[E|[]]]; discriminate.
  - intros r [<-|[]]. split; discriminate.
Defined.

(** X4. In a store with referential integrity, committing a pending
    connection with non-empty source and target keeps that integrity exactly
    when both are ids of persons of the store; this is the case when both
    are ids of nodes handed to the graph view. *)
Theorem commitConnection_referential `{JSNumber number} (rnd : string) (p : Proximity)
    (src tgt : string) (rndPos : nat -> number * number) (s : State number) :
  pendingConnect s = Some {| source := Some src; target := Some tgt |} ->
  src <> "" -> tgt <> "" ->
  referential s ->
  (referential (run (commitConnection rnd p s) s)
   <-> In src (map Person.id (persons s)) /\ In tgt (map Person.id (persons s)))
  /\ (In src (map node_id (initialNodes rndPos s)) ->
      In tgt (map node_id (initialNodes rndPos s)) ->
      referential (run (commitConnection rnd p s) s)).
Proof.
  intros Hpend Hs Ht Href.
  assert (Hrun : persons (run (commitConnection rnd p s) s) = persons s
                 /\ relations (run (commitConnection rnd p s) s)
                    = (relations s ++ [ {| Relation.id := genId "rel" rnd;
                                           Relation.sourceId := src; Relation.targetId := tgt;
                                           Relation.proximity := prox p |} ])%list).
  { unfold commitConnection. now rewrite Hpend, (newRel_Some rnd p src tgt Hs Ht). }
  destruct Hrun as [Ep Er].
  assert (Hiff : referential (run (commitConnection rnd p s) s)
                 <-> In src (map Person.id (persons s)) /\ In tgt (map Person.id (persons s))).
  { unfold referential. rewrite Ep, Er. split.
    - intros H'. apply (H' {| Relation.id := genId "rel" rnd; Relation.sourceId := src;
                             Relation.targetId := tgt; Relation.proximity := prox p |}).
      apply in_app_iff. right. now left.
    - intros Hin r Hr. apply in_app_iff in Hr as [Hr | [<- | []]]; [now apply Href | exact Hin]. }
  split; [exact Hiff|].
  assert (Hnode : forall x, In x (map node_id (initialNodes rndPos s)) ->
                            In x (map Person.id (persons s))).
  { intros x Hx. unfold initialNodes in Hx.
    assert (Hgen : forall k ps, In x (map node_id (nodesFrom rndPos k ps)) ->
                                In x (map Person.id ps)).
    { intros k ps. revert k. induction ps as [|q ps IH]; intros k; cbn; [trivial|].
      intros [E | Hin]; [now left | right; eapply IH; exact Hin]. }
    apply Hgen in Hx. apply in_map_iff in Hx as (q & E & Hq).
    apply List.filter_In in Hq as [Hq _]. apply in_map_iff. now exists q. }
  intros Hsrc Htgt. apply Hiff. split; now apply Hnode.
Qed.

Lemma commitConnection_referential_witness :
  referential (run (commitConnection "k3x9q2a" fort jeanToMarie) jeanToMarie).
Proof.
  assert (Href : referential jeanToMarie).
  { intros r [<-|[]]. cbn. split; [now left | now right; left]. }
  destruct (commitConnection_referential "k3x9q2a" fort "p-jean" "p-marie"
              (fun _ => (0, 0)%Z) jeanToMarie eq_refl) as [Hiff _];
    [discriminate | discriminate | exact Href |].
  apply Hiff. cbn. split; [now right; left | now left].
Defined.

(** ** Editing and moving a person *)

(** X5. [onUpdatePerson] keeps the ids of the persons, in order, and the
    relations, hence both invariants of the store; it keeps every position
    when the data has no position key, as the data of the form; and for an
    id that no person has it changes no person. *)
Theorem onUpdatePerson_frame {number} (id : string) (data : PersonData number)
    (s : State number) :
  map Person.id (persons (run (onUpdatePerson id data) s)) = map Person.id (persons s)
  /\ relations (run (onUpdatePerson id data) s) = relations s
  /\ (d_position data = None ->
      map Person.position (persons (run (onUpdatePerson id data) s))
      = map Person.position (persons s))
  /\ ((forall p, In p (persons s) -> Person.id p <> id) ->
      persons (run (onUpdatePerson id data) s) = persons s)
  /\ (referential s -> referential (run (onUpdatePerson id data) s))
  /\ (uniqueIds s -> uniqueIds (run (onUpdatePerson id data) s)).
Proof.
  assert (Hids : map Person.id (persons (run (onUpdatePerson id data) s))
                 = map Person.id (persons s)).
  { cbn. now apply (map_id_update Person.id (fun p => spreadPerson p data)). }
  split; [exact Hids|]. split; [reflexivity|]. split; [|split; [|split]].
  - intros Hpos. cbn. rewrite map_map. apply map_ext. intros p.
    destruct (String.eqb (Person.id p) id); [|reflexivity]. cbn. now rewrite Hpos.
  - intros Habs. cbn. now apply update_absent.
  - intros Href r Hr. rewrite Hids. now apply Href.
  - intros [Hp Hr]. split; [now rewrite Hids | exact Hr].
Qed.

Lemma onUpdatePerson_frame_witness :
  map Person.position (persons (run (onUpdatePerson "p-marie" paulData) twoPersons))
  = [Some (120, 45)%Z; None]
  /\ persons (run (onUpdatePerson "p-paul" paulData) twoPersons) = [marie; jean].
Proof.
  destruct (onUpdatePerson_frame "p-marie" paulData twoPersons) as (_ & _ & Hpos & _).
  destruct (onUpdatePerson_frame "p-paul" paulData twoPersons) as (_ & _ & _ & Habs & _).
  split.
  - now rewrite (Hpos eq_refl).
  - apply Habs. intros p [<-|[<-|[]]]; discriminate.
Defined.

Lemma keepPerson_same `{JSNumber number} (term pf : string) (cf : list string)
    (p q : Person.t number) :
  Person.proximity p = Person.proximity q ->
  default [] (Person.categories p) = default [] (Person.categories q) ->
  hay p = hay q ->
  keepPerson term pf cf p = keepPerson term pf cf q.
Proof. intros Ep Ec Eh. unfold keepPerson. now rewrite Ep, Ec, Eh. Qed.

Lemma filteredPersons_update `{JSNumber number} (upd : Person.t number -> Person.t number)
    (c : Person.t number -> bool) (s : State number) :
  (forall p term, keepPerson term (proximityFilter s) (categoryFilter s) (upd p)
                  = keepPerson term (proximityFilter s) (categoryFilter s) p) ->
  filteredPersons (setPersons (map (fun p => if c p then upd p else p)) s)
  = map (fun p => if c p then upd p else p) (filteredPersons s).
Proof.
  intros Hk. unfold filteredPersons. cbn. rewrite filter_map_swap. f_equal.
  apply List.filter_ext. intros p. destruct (c p); [apply Hk | reflexivity].
Qed.

Lemma visibleRelations_same_ids `{JSNumber number} (s s' : State number) :
  map Person.id (filteredPersons s') = map Person.id (filteredPersons s) ->
  relations s' = relations s ->
  visibleRelations s' = visibleRelations s.
Proof. intros Eids Erel. unfold visibleRelations. now rewrite Eids, Erel. Qed.

(** X6. Dragging a node moves the persons with the id of the node and
    changes nothing that the filter reads: the same persons pass, in the
    same order, the same relations are visible and the same edges are
    shown. *)
Theorem onNodeDragStop_keeps_view `{JSNumber number} (nodeId : string)
    (pos : number * number) (s : State number) :
  filteredPersons (run (onNodeDragStop nodeId pos) s)
  = map (fun p => if String.eqb (Person.id p) nodeId then movePerson p pos else p)
        (filteredPersons s)
  /\ map Person.id (filteredPersons (run (onNodeDragStop nodeId pos) s))
     = map Person.id (filteredPersons s)
  /\ relations (run (onNodeDragStop nodeId pos) s) = relations s
  /\ visibleRelations (run (onNodeDragStop nodeId pos) s) = visibleRelations s
  /\ initialEdges (run (onNodeDragStop nodeId pos) s) = initialEdges s.
Proof.
  assert (Hf : filteredPersons (run (onNodeDragStop nodeId pos) s)
               = map (fun p => if String.eqb (Person.id p) nodeId then movePerson p pos else p)
                     (filteredPersons s)).
  { cbn. apply (filteredPersons_update (fun p => movePerson p pos)).
    intros p term. now apply keepPerson_same. }
  assert (Hids : map Person.id (filteredPersons (run (onNodeDragStop nodeId pos) s))
                 = map Person.id (filteredPersons s)).
  { rewrite Hf. now apply (map_id_update Person.id (fun p => movePerson p pos)). }
  assert (Hvis : visibleRelations (run (onNodeDragStop nodeId pos) s) = visibleRelations s)
    by now apply visibleRelations_same_ids.
  repeat split; try assumption. unfold initialEdges. now rewrite Hvis.
Qed.

(** ** Deleting a relation *)

(** X7. With the edit dialog open on relation [e], "Supprimer le lien"
    leaves exactly the relations whose id is not that of [e], leaves the
    persons alone, closes the dialog and keeps both invariants of the
    store. *)
Theorem onDeleteRelation_spec {number} (s : State number) (e : Relation.t number) :
  selectedEdge s = Some e ->
  (forall r, In r (relations (run (onDeleteRelation s) s))
             <-> In r (relations s) /\ Relation.id r <> Relation.id e)
  /\ persons (run (onDeleteRelation s) s) = persons s
  /\ selectedEdge (run (onDeleteRelation s) s) = None
  /\ (referential s -> referential (run (onDeleteRelation s) s))
  /\ (uniqueIds s -> uniqueIds (run (onDeleteRelation s) s)).
Proof.
  intros Hsel. unfold onDeleteRelation. rewrite Hsel. cbn.
  assert (Hin : forall r,
             In r (List.filter (fun r => negb (String.eqb (Relation.id r) (Relation.id e)))
                               (relations s))
             <-> In r (relations s) /\ Relation.id r <> Relation.id e).
  { intros r. now rewrite List.filter_In, eqb_false_iff. }
  split; [exact Hin|]. split; [reflexivity|]. split; [reflexivity|]. split.
  - intros Href r Hr. cbn in *. apply Hin in Hr as [Hr _]. now apply Href.
  - intros [Hp Hr]. split; cbn; [exact Hp | now apply NoDup_map_filter].
Qed.

Lemma onDeleteRelation_spec_witness :
  relations (run (onDeleteRelation twoPersons) twoPersons) = []
  /\ persons (run (onDeleteRelation twoPersons) twoPersons) = [marie; jean]
  /\ selectedEdge (run (onDeleteRelation twoPersons) twoPersons) = None.
Proof.
  destruct (onDeleteRelation_spec twoPersons marie_jean eq_refl) as (_ & Hp & Hsel & _).
  split; [reflexivity|]. split; [exact Hp | exact Hsel].
Defined.

(** ** The graph handed to the view *)

Lemma nodesFrom_ids {number} (rndPos : nat -> number * number) (k : nat)
    (ps : list (Person.t number)) :
  map node_id (nodesFrom rndPos k ps) = map Person.id ps
  /\ map node_person (nodesFrom rndPos k ps) = ps.
Proof.
  revert k. induction ps as [|p ps IH]; intros k; cbn; [now split|].
  destruct (IH (match Person.position p with Some _ => k | None => S k end)) as [E1 E2].
  now rewrite E1, E2.
Qed.

(** X8. The graph handed to the view is closed: there is one node per person
    that passes the filter, with the id of that person and in the same
    order, every node carries a person of the store, and the source and the
    target of every edge are ids of nodes. *)
Theorem view_is_closed `{JSNumber number} (rndPos : nat -> number * number)
    (s : State number) :
  map node_id (initialNodes rndPos s) = map Person.id (filteredPersons s)
  /\ (forall n, In n (initialNodes rndPos s) -> In (node_person n) (persons s))
  /\ (forall e, In e (initialEdges s) ->
        In (edge_source e) (map node_id (initialNodes rndPos s))
        /\ In (edge_target e) (map node_id (initialNodes rndPos s))).
Proof.
  destruct (nodesFrom_ids rndPos 0 (filteredPersons s)) as [Eid Eperson].
  split; [exact Eid|]. split.
  - intros n Hn. apply (in_map node_person) in Hn.
    unfold initialNodes in Hn. rewrite Eperson in Hn.
    now apply List.filter_In in Hn as [Hn _].
  - intros e He. unfold initialNodes. rewrite Eid.
    unfold initialEdges in He. apply in_map_iff in He as (r & <- & Hr).
    unfold visibleRelations in Hr. cbv zeta in Hr.
    apply List.filter_In in Hr as [_ Hr]. apply andb_true_iff in Hr as [Hs Ht].
    apply keepIds_spec in Hs as (p & Hp & Ep). apply keepIds_spec in Ht as (q & Hq & Eq).
    cbn. split; apply in_map_iff; eauto.
Qed.

(** X9. With a blank search, the proximity filter on ["all"] and no category
    ticked, every person passes the filter, and every relation is visible
    exactly when the store has referential integrity: a relation with an
    endpoint outside the store is never shown. *)
Theorem neutral_filter_shows_store `{JSNumber number} (s : State number) :
  trim (search s) = "" -> proximityFilter s = "all" -> categoryFilter s = [] ->
  filteredPersons s = persons s
  /\ (visibleRelations s = relations s <-> referential s).
Proof.
  intros Hsearch Hpf Hcf.
  assert (Hall : filteredPersons s = persons s).
  { unfold filteredPersons. rewrite Hsearch, Hpf, Hcf. now apply filter_all_id. }
  split; [exact Hall|].
  unfold visibleRelations. cbv zeta. rewrite Hall. split.
  - intros E r Hr.
    pose proof (filter_id_all _ _ E r Hr) as Hk. apply andb_true_iff in Hk as [Hs Ht].
    apply keepIds_spec in Hs as (p & Hp & Ep). apply keepIds_spec in Ht as (q & Hq & Eq).
    split; apply in_map_iff; eauto.
  - intros Href. apply filter_all_id. intros r Hr. destruct (Href r Hr) as [Hs Ht].
    apply in_map_iff in Hs as (p & Ep & Hp). apply in_map_iff in Ht as (q & Eq & Hq).
    apply andb_true_iff. split; apply keepIds_spec; eauto.
Qed.

Lemma neutral_filter_shows_store_witness :
  filteredPersons (setSearch "   " twoPersons) = [marie; jean]
  /\ visibleRelations (setSearch "   " twoPersons) = [marie_jean].
Proof.
  destruct (neutral_filter_shows_store (setSearch "   " twoPersons) eq_refl eq_refl eq_refl)
    as [Hp Hr].
  split; [exact Hp|]. apply Hr.
  intros r [<-|[]]. cbn. split; [now left | now right; left].
Defined.

(** ** The search *)

Lemma append_assoc_s (a b c : string) : (a +:+ b) +:+ c = a +:+ (b +:+ c).
Proof. induction a as [|x a IH]; [reflexivity|]. now rewrite !append_cons, IH. Qed.

Lemma append_empty (a b : string) : a +:+ b = "" -> a = "" /\ b = "".
Proof. destruct a; [now split | discriminate]. Qed.

Lemma substring_trans (a b c : string) :
  substring a b -> substring b c -> substring a c.
Proof.
  intros (p1 & q1 & ->) (p2 & q2 & ->).
  exists (p2 +:+ p1), (q1 +:+ q2). now rewrite !append_assoc_s.
Qed.

Lemma substring_of_empty (a : string) : substring a "" -> a = "".
Proof.
  intros (p & q & E). symmetry in E.
  apply append_empty in E as [_ E]. now apply append_empty in E as [E _].
Qed.

Lemma is_white_toLowerCase_char (c : ascii) : is_white (toLowerCase_char c) = is_white c.
Proof. destruct c as [[|] [|] [|] [|] [|] [|] [|] [|]]; reflexivity. Qed.

Lemma toLowerCase_empty (s : string) : toLowerCase s = "" <-> s = "".
Proof. destruct s; cbn; split; congruence. Qed.

Lemma trimStart_toLowerCase (s : string) :
  trimStart (toLowerCase s) = toLowerCase (trimStart s).
Proof.
  induction s as [|c s IH]; [reflexivity|].
  cbn. rewrite is_white_toLowerCase_char. now destruct (is_white c).
Qed.

Lemma trimEnd_toLowerCase (s : string) :
  trimEnd (toLowerCase s) = toLowerCase (trimEnd s).
Proof.
  induction s as [|c s IH]; [reflexivity|].
  cbn. rewrite IH, is_white_toLowerCase_char.
  destruct (trimEnd s) as [|d t]; cbn; [now destruct (is_white c) | reflexivity].
Qed.

(** Trimming and lower-casing commute. *)
Lemma trim_toLowerCase (s : string) : trim (toLowerCase s) = toLowerCase (trim s).
Proof. unfold trim. now rewrite trimStart_toLowerCase, trimEnd_toLowerCase. Qed.

(** X10. The search ignores case: two searches that agree once put in lower
    case keep the same persons, whatever the rest of the state. *)
Theorem search_ignores_case `{JSNumber number} (t u : string) (s : State number) :
  toLowerCase t = toLowerCase u ->
  filteredPersons (setSearch t s) = filteredPersons (setSearch u s).
Proof.
  intros E. unfold filteredPersons.
  cbn [search setSearch proximityFilter categoryFilter persons].
  now rewrite <- !trim_toLowerCase, E.
Qed.

Lemma search_ignores_case_witness :
  filteredPersons (setSearch "ACME" twoPersons) = filteredPersons (setSearch "acme" twoPersons).
Proof. apply (search_ignores_case "ACME" "acme" twoPersons). reflexivity. Defined.

(** X11. Narrowing: when the normalised term of one search occurs in the
    normalised term of another, every person the longer search keeps is kept
    by the shorter one. *)
Theorem search_narrowing `{JSNumber number} (t t' : string) (s : State number)
    (p : Person.t number) :
  substring (toLowerCase (trim t')) (toLowerCase (trim t)) ->
  In p (filteredPersons (setSearch t s)) ->
  In p (filteredPersons (setSearch t' s)).
Proof.
  intros Hsub Hin. unfold filteredPersons in *.
  cbn [search setSearch proximityFilter categoryFilter persons] in *.
  apply List.filter_In in Hin as [Hp Hk]. apply List.filter_In. split; [exact Hp|].
  apply keepPerson_spec in Hk as (Hpf & Hcf & Hterm).
  apply keepPerson_spec. split; [exact Hpf|]. split; [exact Hcf|].
  destruct Hterm as [E | Hhay].
  - left. rewrite E in Hsub. now apply substring_of_empty.
  - right. now apply (substring_trans _ (toLowerCase (trim t))).
Qed.

Lemma search_narrowing_witness :
  In marie (filteredPersons (setSearch " Dup " twoPersons)).
Proof.
  apply (search_narrowing "marie DUPONT" " Dup " twoPersons marie).
  - now exists "marie ", "ont".
  - now left.
Defined.

(** ** The person form *)

(** X12. Submitting the add form with an empty first or last name changes
    nothing and raises the "Champs requis" toast; otherwise it appends the
    person made of the fields of the form, with the company, the comment and
    the categories always set and no position.  So the form never stores a
    person without a first and a last name. *)
Theorem submitForm_onAddPerson {number} (rnd : string) (f : FormState number)
    (s : State number) :
  (f_firstName f = "" \/ f_lastName f = "" ->
   run (submitForm (onAddPerson rnd) f) s = s
   /\ toasts (submitForm (onAddPerson rnd) f) = [requiredToast])
  /\ (f_firstName f <> "" -> f_lastName f <> "" ->
      persons (run (submitForm (onAddPerson rnd) f) s)
      = (persons s ++ [ {| Person.id := genId "p" rnd;
                           Person.firstName := f_firstName f;
                           Person.lastName := f_lastName f;
                           Person.company := Some (f_company f);
                           Person.comment := Some (f_comment f);
                           Person.proximity := f_proximity f;
                           Person.categories := Some (f_categories f);
                           Person.position := None |} ])%list)
  /\ (forall p, In p (persons (run (submitForm (onAddPerson rnd) f) s)) ->
        In p (persons s) \/ (Person.firstName p <> "" /\ Person.lastName p <> "")).
Proof.
  unfold submitForm.
  destruct (f_firstName f) as [|a fn] eqn:Ef; cbn [nonempty negb orb].
  { split; [now intros _|]. split; [now intros Hne|]. intros p Hp. now left. }
  destruct (f_lastName f) as [|b ln] eqn:El; cbn [nonempty negb orb].
  { split; [now intros _|]. split; [now intros _ Hne|]. intros p Hp. now left. }
  split; [intros [E|E]; discriminate|]. split.
  - intros _ _. cbn. unfold newPerson, formData. cbn. now rewrite Ef, El.
  - intros p Hp. cbn in Hp. apply in_app_iff in Hp as [Hp | [<- | []]]; [now left|].
    right. cbn. rewrite Ef, El. split; discriminate.
Qed.

Lemma submitForm_onAddPerson_witness :
  run (submitForm (onAddPerson "k3x9q2a") (initForm None)) twoPersons = twoPersons
  /\ map Person.id (persons (run (submitForm (onAddPerson "k3x9q2a") paulForm) twoPersons))
     = ["p-marie"; "p-jean"; "p-k3x9q2a"].
Proof.
  destruct (submitForm_onAddPerson "k3x9q2a" (initForm None) twoPersons) as ([Hs _] & _ & _);
    [now left|].
  destruct (submitForm_onAddPerson "k3x9q2a" paulForm twoPersons) as (_ & Hadd & _).
  split; [exact Hs|]. rewrite Hadd; [reflexivity | discriminate | discriminate].
Defined.

Lemma unique_by_id {number} (l : list (Person.t number)) (p q : Person.t number) :
  NoDup (map Person.id l) -> In p l -> In q l -> Person.id q = Person.id p -> q = p.
Proof.
  induction l as [|a l IH]; cbn; [contradiction|].
  intros Hnd Hp Hq E. apply NoDup_cons in Hnd as [Ha Hl].
  assert (Hnot : forall x, In x l -> Person.id x <> Person.id a).
  { intros x Hx Ex. apply Ha. apply list_elem_of_In, in_map_iff. now exists x. }
  destruct Hp as [<- | Hp], Hq as [<- | Hq]; try reflexivity.
  - now apply Hnot in Hq.
  - symmetry in E. now apply Hnot in Hp.
  - now apply IH.
Qed.

(** X13. Opening the edit form on a person [p] of a store with unique ids
    and saving it untouched rewrites [p] as [formFilled p] and leaves every
    other person as it is; it changes no person at all when [p] already has
    a company, a comment and categories.  A person whose first or last name
    is empty cannot be saved. *)
Theorem edit_without_change {number} (p : Person.t number) (s : State number) :
  In p (persons s) -> NoDup (map Person.id (persons s)) ->
  (Person.firstName p <> "" -> Person.lastName p <> "" ->
   persons (run (submitForm (onUpdatePerson (Person.id p)) (initForm (Some p))) s)
   = map (fun q => if String.eqb (Person.id q) (Person.id p) then formFilled p else q)
         (persons s)
   /\ (Person.company p <> None -> Person.comment p <> None -> Person.categories p <> None ->
       persons (run (submitForm (onUpdatePerson (Person.id p)) (initForm (Some p))) s)
       = persons s))
  /\ (Person.firstName p = "" \/ Person.lastName p = "" ->
      run (submitForm (onUpdatePerson (Person.id p)) (initForm (Some p))) s = s).
Proof.
  intros Hin Hnd.
  assert (Hmap : Person.firstName p <> "" -> Person.lastName p <> "" ->
     persons (run (submitForm (onUpdatePerson (Person.id p)) (initForm (Some p))) s)
     = map (fun q => if String.eqb (Person.id q) (Person.id p) then formFilled p else q)
           (persons s)).
  { intros Hf Hl. unfold submitForm.
    change (f_firstName (initForm (Some p))) with (Person.firstName p).
    change (f_lastName (initForm (Some p))) with (Person.lastName p).
    apply nonempty_true in Hf, Hl. rewrite Hf, Hl. cbn.
    apply map_ext_in. intros q Hq.
    destruct (String.eqb (Person.id q) (Person.id p)) eqn:E; [|reflexivity].
    apply String.eqb_eq in E. now rewrite (unique_by_id _ p q Hnd Hin Hq E). }
  split.
  - intros Hf Hl. split; [now apply Hmap|].
    intros Hc Hm Hcat. rewrite (Hmap Hf Hl).
    rewrite <- (map_id (persons s)) at 2. apply map_ext_in. intros q Hq.
    destruct (String.eqb (Person.id q) (Person.id p)) eqn:E; [|reflexivity].
    apply String.eqb_eq in E. rewrite (unique_by_id _ p q Hnd Hin Hq E).
    destruct p as [i fn ln [c|] [m|] px [cs|] pos]; unfold formFilled; cbn in *;
      solve [reflexivity | contradiction].
  - intros Hempty. unfold submitForm.
    change (f_firstName (initForm (Some p))) with (Person.firstName p).
    change (f_lastName (initForm (Some p))) with (Person.lastName p).
    destruct Hempty as [-> | ->]; cbn; [reflexivity|].
    now rewrite orb_true_r.
Qed.

Lemma edit_without_change_witness :
  persons (run (submitForm (onUpdatePerson "p-jean") (initForm (Some jean))) twoPersons)
  = [marie; formFilled jean]
  /\ persons (run (submitForm (onUpdatePerson "p-marie") (initForm (Some marie))) twoPersons)
     = [marie; jean].
Proof.
  assert (Hnd : NoDup (map Person.id (persons twoPersons))).
  { apply (bool_decide_unpack _). vm_compute. exact I. }
  destruct (edit_without_change jean twoPersons) as [Hj _]; [now right; left | exact Hnd |].
  destruct (edit_without_change marie twoPersons) as [Hm _]; [now left | exact Hnd |].
  destruct Hj as [Hj _]; [discriminate | discriminate |].
  destruct Hm as [_ Hm]; [discriminate | discriminate |].
  split; [exact Hj|]. apply Hm; discriminate.
Defined.

(** ** The check boxes *)

(** X14. Unticking a category removes it from the list and keeps the others;
    ticking it appends it.  A check box shows whether the list holds its
    category, so a click sends the opposite: under such clicks a list
    without duplicates stays without duplicates, and ticking then unticking
    a category gives the list back. *)
Theorem toggle_spec (cat : string) (l : list string) :
  (forall c, In c (toggle false cat l) <-> In c l /\ c <> cat)
  /\ (forall c, In c (toggle true cat l) <-> In c l \/ c = cat)
  /\ (NoDup l -> NoDup (toggle (negb (array_includes l cat)) cat l))
  /\ (~ In cat l -> toggle false cat (toggle true cat l) = l).
Proof.
  split; [|split; [|split]].
  - intros c. unfold toggle. now rewrite List.filter_In, eqb_false_iff.
  - intros c. unfold toggle. rewrite in_app_iff. cbn. intuition congruence.
  - intros Hnd. destruct (array_includes l cat) eqn:E; cbn [negb toggle].
    + rewrite <- (map_id (List.filter _ l)). apply NoDup_map_filter. now rewrite map_id.
    + apply NoDup_snoc. split; [exact Hnd|]. intros Hin.
      apply array_includes_In in Hin. congruence.
  - intros Hnot. unfold toggle. rewrite List.filter_app. cbn.
    rewrite String.eqb_refl. cbn. rewrite app_nil_r.
    apply filter_all_id. intros c Hc. apply eqb_false_iff. congruence.
Qed.

Lemma toggle_spec_witness :
  toggle false "Advisor" (toggle true "Advisor" ["Partenaire"]) = ["Partenaire"]
  /\ NoDup (toggle (negb (array_includes ["Partenaire"; "Advisor"] "Advisor")) "Advisor"
                   ["Partenaire"; "Advisor"]).
Proof.
  destruct (toggle_spec "Advisor" ["Partenaire"]) as (_ & _ & _ & Hback).
  destruct (toggle_spec "Advisor" ["Partenaire"; "Advisor"]) as (_ & _ & Hnd & _).
  split.
  - apply Hback. intros [E|[]]. discriminate.
  - apply Hnd. apply (bool_decide_unpack _). vm_compute. exact I.
Defined.

(** ** More on the import *)

Lemma importRows_length `{JSNumber number} {A : Type} (build : string -> Row number -> A)
    (prefix : string) (rnd : nat -> string) (k : nat) (rows : list (Row number)) :
  length (importRows build prefix rnd k rows).1 = length rows.
Proof.
  revert k. induction rows as [|row rows IH]; intros k; [reflexivity|].
  cbn [importRows].
  destruct (row !! "id") as [v|];
    [specialize (IH k); destruct (importRows build prefix rnd k rows)
    |specialize (IH (S k)); destruct (importRows build prefix rnd (S k) rows)];
    cbn in *; now rewrite IH.
Qed.

Lemma importRows_lookup `{JSNumber number} {A : Type} (build : string -> Row number -> A)
    (prefix : string) (rnd : nat -> string) (k : nat) (rows : list (Row number))
    (i : nat) (row : Row number) :
  rows !! i = Some row ->
  exists id, (importRows build prefix rnd k rows).1 !! i = Some (build id row)
             /\ (forall v, row !! "id" = Some v -> id = toString v)
             /\ (row !! "id" = None -> exists j, id = genId prefix (rnd j)).
Proof.
  revert k i. induction rows as [|r rows IH]; intros k i Hi; [discriminate|].
  cbn [importRows].
  destruct i as [|i].
  - injection Hi as ->.
    destruct (row !! "id") as [v|] eqn:E.
    + destruct (importRows build prefix rnd k rows). exists (toString v). cbn.
      split; [reflexivity|]. split; [now intros v' [= <-] | discriminate].
    + destruct (importRows build prefix rnd (S k) rows). exists (genId prefix (rnd k)). cbn.
      split; [reflexivity|]. split; [discriminate | now exists k].
  - cbn in Hi.
    destruct (r !! "id") as [v|].
    + destruct (IH k i Hi) as (id & E & Hid). destruct (importRows build prefix rnd k rows).
      exists id. now split.
    + destruct (IH (S k) i Hi) as (id & E & Hid).
      destruct (importRows build prefix rnd (S k) rows). exists id. now split.
Qed.

(** X15. An import of a workbook that has both sheets replaces the persons
    and the relations, whatever they were: there is one person per row of
    "Persons" and one relation per row of "Relations", in the order of the
    rows, each built from its own row, with the id of the row when the row
    has one. *)
Theorem importExcel_one_record_per_row `{JSNumber number} (rnd : nat -> string)
    (wb : Workbook number) (pRows rRows : list (Row number)) (s : State number) :
  wb !! "Persons" = Some pRows -> wb !! "Relations" = Some rRows ->
  length (persons (run (importExcel rnd wb) s)) = length pRows
  /\ length (relations (run (importExcel rnd wb) s)) = length rRows
  /\ (forall i row, pRows !! i = Some row ->
        exists p, persons (run (importExcel rnd wb) s) !! i = Some p
                  /\ p = importPerson (Person.id p) row
                  /\ forall v, row !! "id" = Some v -> Person.id p = toString v)
  /\ (forall i row, rRows !! i = Some row ->
        exists r, relations (run (importExcel rnd wb) s) !! i = Some r
                  /\ r = importRelation (Relation.id r) row
                  /\ forall v, row !! "id" = Some v -> Relation.id r = toString v)
  /\ (forall s2, persons (run (importExcel rnd wb) s2) = persons (run (importExcel rnd wb) s)
                 /\ relations (run (importExcel rnd wb) s2)
                    = relations (run (importExcel rnd wb) s)).
Proof.
  intros EP ER.
  pose proof (importRows_length importPerson "p" rnd 0 pRows) as LP.
  pose proof (fun i row => importRows_lookup importPerson "p" rnd 0 pRows i row) as KP.
  unfold importExcel. rewrite EP, ER.
  destruct (importRows importPerson "p" rnd 0 pRows) as [ps k].
  pose proof (importRows_length importRelation "rel" rnd k rRows) as LR.
  pose proof (fun i row => importRows_lookup importRelation "rel" rnd k rRows i row) as KR.
  destruct (importRows importRelation "rel" rnd k rRows) as [rs k'].
  cbn in *. split; [exact LP|]. split; [exact LR|]. split; [|split].
  - intros i row Hi. destruct (KP i row Hi) as (id & E & Hid & _).
    exists (importPerson id row). now split.
  - intros i row Hi. destruct (KR i row Hi) as (id & E & Hid & _).
    exists (importRelation id row). now split.
  - now intros s2.
Qed.

Lemma importExcel_one_record_per_row_witness :
  let wb : Workbook Z :=
    <["Relations" := []]> (<["Persons" := [personRow jean; <["firstName" := JStr "Zo"]> ∅]]> ∅) in
  length (persons (run (importExcel (fun _ => "0000000") wb) twoPersons)) = 2%nat
  /\ length (relations (run (importExcel (fun _ => "0000000") wb) twoPersons)) = 0%nat.
Proof.
  intros wb.
  destruct (importExcel_one_record_per_row (fun _ => "0000000") wb
              [personRow jean; <["firstName" := JStr "Zo"]> ∅] [] twoPersons eq_refl eq_refl)
    as (Hp & Hr & _).
  split; [exact Hp | exact Hr].
Defined.

(** The round trip, for the results below. *)
Lemma importExcel_exportExcel `{JSNumber number} (rnd : nat -> string) (s : State number) :
  (forall p, In p (persons s) -> Forall encodable (default [] (Person.categories p))) ->
  persons (run (importExcel rnd (exportExcel s)) s) = map normalizePerson (persons s)
  /\ relations (run (importExcel rnd (exportExcel s)) s) = relations s.
Proof.
  intros Hcats.
  pose proof (importRows_exported importPerson personRow Person.id normalizePerson
                "p" rnd 0 (persons s)) as HP.
  pose proof (importRows_exported importRelation relationRow Relation.id (fun r => r)
                "rel" rnd 0 (relations s)) as HR.
  unfold importExcel.
  change (exportExcel s !! "Persons") with (Some (map personRow (persons s))).
  change (exportExcel s !! "Relations") with (Some (map relationRow (relations s))).
  cbv beta iota.
  rewrite HP.
  2:{ intros p Hp. split; [reflexivity|]. now apply importPerson_personRow, Hcats. }
  rewrite HR.
  2:{ intros r _. split; [reflexivity|]. apply importRelation_relationRow. }
  cbn. now rewrite map_id.
Qed.

Lemma importExcel_keeps_filter `{JSNumber number} (rnd : nat -> string)
    (wb : Workbook number) (s : State number) :
  search (run (importExcel rnd wb) s) = search s
  /\ proximityFilter (run (importExcel rnd wb) s) = proximityFilter s
  /\ categoryFilter (run (importExcel rnd wb) s) = categoryFilter s.
Proof.
  unfold importExcel.
  destruct (wb !! "Persons") as [pRows|], (wb !! "Relations") as [rRows|];
    try (now repeat split).
  destruct (importRows importPerson "p" rnd 0 pRows) as [ps k].
  destruct (importRows importRelation "rel" rnd k rRows) as [rs k'].
  now repeat split.
Qed.

Lemma normalizePerson_idempotent {number} (p : Person.t number) :
  normalizePerson (normalizePerson p) = normalizePerson p.
Proof. now destruct p as [i fn ln [[|a c]|] [[|b m]|] px [cs|] pos]. Qed.

(** X16. One round trip through a workbook is enough: exporting and
    importing the store a second time changes neither the persons nor the
    relations. *)
Theorem round_trip_idempotent `{JSNumber number} (rnd rnd' : nat -> string)
    (s : State number) :
  (forall p, In p (persons s) -> Forall encodable (default [] (Person.categories p))) ->
  let s1 := run (importExcel rnd (exportExcel s)) s in
  persons (run (importExcel rnd' (exportExcel s1)) s1) = persons s1
  /\ relations (run (importExcel rnd' (exportExcel s1)) s1) = relations s1.
Proof.
  intros Hcats s1.
  destruct (importExcel_exportExcel rnd s Hcats) as [Ep Er]. fold s1 in Ep, Er.
  destruct (importExcel_exportExcel rnd' s1) as [Ep' Er'].
  { intros q Hq. rewrite Ep in Hq. apply in_map_iff in Hq as (p & <- & Hp).
    cbn. now apply Hcats. }
  split; [|exact Er'].
  rewrite Ep', Ep, map_map. apply map_ext. intros p. apply normalizePerson_idempotent.
Qed.

Lemma round_trip_idempotent_witness :
  let s1 := run (importExcel (fun _ => "0000000") (exportExcel twoPersons)) twoPersons in
  persons (run (importExcel (fun _ => "1111111") (exportExcel s1)) s1) = persons s1.
Proof.
  apply (round_trip_idempotent (fun _ => "0000000") (fun _ => "1111111") twoPersons).
  intros p [<-|[<-|[]]]; cbn; repeat constructor; discriminate.
Defined.

Lemma keepPerson_normalizePerson `{JSNumber number} (term pf : string) (cf : list string)
    (p : Person.t number) :
  keepPerson term pf cf (normalizePerson p) = keepPerson term pf cf p.
Proof.
  apply keepPerson_same; [reflexivity | reflexivity |].
  now destruct p as [i fn ln [[|a c]|] [[|b m]|] px [cs|] pos].
Qed.

(** X17. For a store whose category tags are non-empty and free of "|", and
    a file that is read back as the rows that were written, the round trip
    through a workbook is invisible to the filter: the persons that pass
    afterwards are those that passed before, read back, and the visible
    relations and the edges are the same. *)
Theorem round_trip_keeps_view `{JSNumber number} (rnd : nat -> string) (s : State number) :
  (forall p, In p (persons s) -> Forall encodable (default [] (Person.categories p))) ->
  let s1 := run (importExcel rnd (exportExcel s)) s in
  filteredPersons s1 = map normalizePerson (filteredPersons s)
  /\ visibleRelations s1 = visibleRelations s
  /\ initialEdges s1 = initialEdges s.
Proof.
  intros Hcats s1.
  destruct (importExcel_exportExcel rnd s Hcats) as [Ep Er]. fold s1 in Ep, Er.
  destruct (importExcel_keeps_filter rnd (exportExcel s) s) as (Es & Epf & Ecf).
  fold s1 in Es, Epf, Ecf.
  assert (Hf : filteredPersons s1 = map normalizePerson (filteredPersons s)).
  { unfold filteredPersons. rewrite Ep, Es, Epf, Ecf, filter_map_swap. f_equal.
    apply List.filter_ext. intros p. apply keepPerson_normalizePerson. }
  assert (Hv : visibleRelations s1 = visibleRelations s).
  { apply visibleRelations_same_ids; [|exact Er]. rewrite Hf, map_map. now apply map_ext. }
  split; [exact Hf|]. split; [exact Hv|]. unfold initialEdges. now rewrite Hv.
Qed.

Lemma round_trip_keeps_view_witness :
  visibleRelations (run (importExcel (fun _ => "0000000") (exportExcel twoPersons)) twoPersons)
  = [marie_jean].
Proof.
  destruct (round_trip_keeps_view (fun _ => "0000000") twoPersons) as (_ & Hv & _).
  - intros p [<-|[<-|[]]]; cbn; repeat constructor; discriminate.
  - rewrite Hv. reflexivity.
Defined.

(** ** The encoding of the categories *)

Lemma count_char_zero (c : ascii) (s : string) :
  count_char c s = 0%nat <-> has_char c s = false.
Proof.
  induction s as [|a s IH]; cbn; [tauto|].
  destruct (Ascii.eqb a c); cbn.
  - split; [lia | discriminate].
  - exact IH.
Qed.

Lemma count_char_append (c : ascii) (a b : string) :
  count_char c (a +:+ b) = (count_char c a + count_char c b)%nat.
Proof.
  induction a as [|x a IH]; [reflexivity|].
  rewrite append_cons. cbn. rewrite IH. lia.
Qed.

(** [split] cuts at every occurrence of the separator. *)
Lemma split_length (c : ascii) (s : string) :
  length (split c s) = S (count_char c s).
Proof.
  induction s as [|a s IH]; [reflexivity|].
  cbn. destruct (Ascii.eqb a c); cbn; [now rewrite IH|].
  destruct (split c s) as [|h t]; cbn in *; lia.
Qed.

Lemma count_char_join (c : ascii) (x : string) (rest : list string) :
  count_char c (join (String c "") (x :: rest))
  = (length rest + list_sum (map (count_char c) (x :: rest)))%nat.
Proof.
  revert x. induction rest as [|y rest IH]; intros x.
  - cbn. lia.
  - change (join (String c "") (x :: y :: rest))
      with (x +:+ String c (join (String c "") (y :: rest))).
    rewrite count_char_append. cbn [count_char]. rewrite Ascii.eqb_refl, IH. cbn. lia.
Qed.

Lemma list_sum_zero (l : list nat) : list_sum l = 0%nat -> Forall (fun n => n = 0%nat) l.
Proof.
  induction l as [|n l IH]; [constructor|].
  change (list_sum (n :: l)) with (n + list_sum l)%nat.
  intros E. constructor; [lia | apply IH; lia].
Qed.

Lemma imported_categories `{JSNumber number} (id : string) (p : Person.t number) :
  Person.categories (importPerson id (personRow p))
  = Some (if nonempty (join "|" (default [] (Person.categories p)))
          then split "|" (join "|" (default [] (Person.categories p)))
          else []).
Proof.
  unfold importPerson, stringIfTruthy. cbn [Person.categories].
  change (personRow p !! "categories")
    with (Some (JStr (number := number) (join "|" (default [] (Person.categories p))))).
  cbn [truthy toString].
  now destruct (nonempty (join "|" (default [] (Person.categories p)))).
Qed.

(** X18. The categories of a person survive the export and the import
    exactly when no tag holds the delimiter "|" and the list is not the
    single empty tag; otherwise the import cuts a tag at each delimiter, or
    reads the single empty tag as no tag. *)
Theorem categories_round_trip `{JSNumber number} (id : string) (p : Person.t number) :
  Person.categories (importPerson id (personRow p))
  = Some (default [] (Person.categories p))
  <-> Forall (fun c => has_char "|" c = false) (default [] (Person.categories p))
      /\ default [] (Person.categories p) <> [""].
Proof.
  rewrite imported_categories.
  destruct (default [] (Person.categories p)) as [|x rest] eqn:Ecats.
  - cbn. split; [intros _; split; [constructor | discriminate] | reflexivity].
  - split.
    + intros E.
      destruct (nonempty (join "|" (x :: rest))) eqn:Hne; [|discriminate].
      injection E as E.
      assert (E' : split "|" (join "|" (x :: rest)) = x :: rest) by exact E.
      split.
      * pose proof (split_length "|" (join "|" (x :: rest))) as Hlen.
        rewrite E', count_char_join in Hlen. cbn [length] in Hlen.
        assert (Hsum : list_sum (map (count_char "|") (x :: rest)) = 0%nat) by lia.
        apply list_sum_zero in Hsum. rewrite Forall_map in Hsum.
        eapply List.Forall_impl; [|exact Hsum]. intros c Hc. now apply count_char_zero.
      * intros [= -> ->]. discriminate.
    + intros [Hall Hne].
      assert (Hj : nonempty (join "|" (x :: rest)) = true).
      { destruct rest as [|y rest]; [|now destruct x].
        destruct x; [contradiction | reflexivity]. }
      rewrite Hj. f_equal. apply (split_join "|"); [discriminate | exact Hall].
Qed.

Lemma categories_round_trip_witness :
  Person.categories (importPerson "p-marie" (personRow marie)) = Some ["Partenaire"; "Advisor"].
Proof.
  apply (categories_round_trip "p-marie" marie). cbn.
  split; [repeat constructor | discriminate].
Defined.

(** ** Clicks *)

Lemma find_by_id {A} (key : A -> string) (l : list A) (x : A) :
  In x l ->
  exists y, List.find (fun a => String.eqb (key a) (key x)) l = Some y
            /\ In y l /\ key y = key x
            /\ (NoDup (map key l) -> y = x).
Proof.
  intros Hx.
  destruct (List.find (fun a => String.eqb (key a) (key x)) l) as [y|] eqn:E.
  - apply find_some in E as Hy. destruct Hy as [Hy Ey]. apply String.eqb_eq in Ey.
    exists y. split; [reflexivity|]. split; [exact Hy|]. split; [exact Ey|].
    intros Hnd. clear E. induction l as [|a l IH]; [contradiction|].
    cbn in Hnd. apply NoDup_cons in Hnd as [Ha Hl].
    assert (Hnot : forall z, In z l -> key z <> key a).
    { intros z Hz Ez. apply Ha. apply list_elem_of_In, in_map_iff. now exists z. }
    destruct Hx as [<- | Hx], Hy as [<- | Hy]; try reflexivity.
    + now apply Hnot in Hy.
    + symmetry in Ey. now apply Hnot in Hx.
    + now apply IH.
  - apply (find_none _ _ E) in Hx. now rewrite String.eqb_refl in Hx.
Qed.

(** X19. A click on an edge that is shown opens the edit dialog on a
    relation of the store with the id of the edge, and a click on a node
    that is shown opens it on a person of the store with the id of the node;
    with unique ids these are the relation and the person that are shown.
    Neither click changes the persons or the relations.  A click on an edge
    whose id no relation has changes nothing. *)
Theorem clicks_select_stored_records `{JSNumber number} (rndPos : nat -> number * number)
    (s : State number) :
  (forall e, In e (initialEdges s) ->
     exists r, selectedEdge (run (onEdgeClick (edge_id e) s) s) = Some r
               /\ In r (relations s) /\ Relation.id r = edge_id e
               /\ (NoDup (map Relation.id (relations s)) -> toEdge r = e))
  /\ (forall n, In n (initialNodes rndPos s) ->
        exists p, selectedNode (run (onNodeClick (node_id n) s) s) = Some p
                  /\ In p (persons s) /\ Person.id p = node_id n
                  /\ (NoDup (map Person.id (persons s)) -> p = node_person n))
  /\ (forall id, persons (run (onEdgeClick id s) s) = persons s
                 /\ relations (run (onEdgeClick id s) s) = relations s
                 /\ persons (run (onNodeClick id s) s) = persons s
                 /\ relations (run (onNodeClick id s) s) = relations s)
  /\ (forall id, (forall r, In r (relations s) -> Relation.id r <> id) ->
                 run (onEdgeClick id s) s = s).
Proof.
  split; [|split; [|split]].
  - intros e He. unfold initialEdges in He. apply in_map_iff in He as (r0 & <- & Hr0).
    unfold visibleRelations in Hr0. cbv zeta in Hr0. apply List.filter_In in Hr0 as [Hr0 _].
    destruct (find_by_id Relation.id (relations s) r0 Hr0) as (r & E & Hr & Eid & Huniq).
    exists r. unfold onEdgeClick. cbn [edge_id toEdge]. rewrite E. cbn.
    split; [reflexivity|]. split; [exact Hr|]. split; [exact Eid|].
    intros Hnd. now rewrite (Huniq Hnd).
  - intros n Hn.
    assert (Hperson : In (node_person n) (persons s) /\ Person.id (node_person n) = node_id n).
    { unfold initialNodes in Hn. revert Hn. generalize 0%nat.
      assert (Hsub : forall q, In q (filteredPersons s) -> In q (persons s)).
      { intros q Hq. now apply List.filter_In in Hq as [Hq _]. }
      revert Hsub. generalize (filteredPersons s). intros ps.
      induction ps as [|q ps IH]; intros Hsub k Hn; [contradiction|].
      cbn in Hn. destruct Hn as [<- | Hn].
      - split; [apply Hsub; now left | reflexivity].
      - eapply IH; [|exact Hn]. intros q' Hq'. apply Hsub. now right. }
    destruct Hperson as [Hp Eid].
    destruct (find_by_id Person.id (persons s) (node_person n) Hp) as (p & E & Hin & Ep & Huniq).
    exists p. cbn. rewrite <- Eid, E.
    split; [reflexivity|]. split; [exact Hin|]. split; [exact Ep | exact Huniq].
  - intros id. unfold onEdgeClick.
    destruct (List.find _ (relations s)); now cbn.
  - intros id Habs. unfold onEdgeClick.
    destruct (List.find (fun rr => String.eqb (Relation.id rr) id) (relations s)) as [r|] eqn:E;
      [|reflexivity].
    apply find_some in E as [Hr Er]. apply String.eqb_eq in Er. now apply Habs in Hr.
Qed.

Lemma clicks_select_stored_records_witness :
  (exists r, selectedEdge (run (onEdgeClick "rel-1" (setSelectedEdge None twoPersons))
                               (setSelectedEdge None twoPersons)) = Some r
             /\ Relation.id r = "rel-1")
  /\ run (onEdgeClick "rel-9" twoPersons) twoPersons = twoPersons.
Proof.
  destruct (clicks_select_stored_records (fun _ => (0, 0)%Z) (setSelectedEdge None twoPersons))
    as (Hedge & _ & _ & _).
  destruct (clicks_select_stored_records (fun _ => (0, 0)%Z) twoPersons) as (_ & _ & _ & Hnone).
  split.
  - destruct (Hedge (toEdge marie_jean)) as (r & E & _ & Eid & _); [now left|].
    exists r. split; [exact E | exact Eid].
  - apply Hnone. intros r [<-|[]]. discriminate.
Defined.

(** ** The hook *)

Lemma mutators_refused `{JSNumber number} (hs : HookState number)
    (reply reply2 : Reply number) (data : PersonData number) (id src tgt : string)
    (p : Proximity) (pos : number * number) :
  h_user hs = None \/ (forall d, reply <> Replied d false) ->
  run (addPerson reply data hs) hs = hs
  /\ run (updatePerson reply id data hs) hs = hs
  /\ run (deletePerson reply reply2 id hs) hs = hs
  /\ run (addRelation reply src tgt p hs) hs = hs
  /\ run (updatePersonPosition reply id pos hs) hs = hs.
Proof.
  intros Hrefuse.
  unfold addPerson, updatePerson, deletePerson, addRelation, updatePersonPosition.
  destruct (h_user hs) as [u|]; [|now repeat split].
  destruct Hrefuse as [Hu | Hreply]; [discriminate|].
  destruct reply as [|d [|]]; try (now repeat split; destruct reply2; try destruct d).
  exfalso. now apply (Hreply d).
Qed.

(** X20. The hook is pessimistic.  [addPerson], [updatePerson],
    [addRelation] and [updatePersonPosition] change nothing when nobody is
    signed in or when their remote call threw or came back with an error.
    [deletePerson] changes nothing when nobody is signed in, when either of
    its two deletes threw or when the delete of the person came back with an
    error; an error of the delete of the relations alone is ignored, and the
    local cascade is then the same as without it.  No mutator ever changes
    the signed-in user or the loading flag. *)
Theorem hook_mutators_are_pessimistic `{JSNumber number} (hs : HookState number)
    (reply reply2 : Reply number) (data : PersonData number) (id src tgt : string)
    (p : Proximity) (pos : number * number) :
  (h_user hs = None \/ (forall d, reply <> Replied d false) ->
   run (addPerson reply data hs) hs = hs
   /\ run (updatePerson reply id data hs) hs = hs
   /\ run (addRelation reply src tgt p hs) hs = hs
   /\ run (updatePersonPosition reply id pos hs) hs = hs)
  /\ (h_user hs = None \/ ~ deleted reply reply2 ->
      run (deletePerson reply reply2 id hs) hs = hs)
  /\ (forall d d',
        run (deletePerson (Replied d false) (Replied d' true) id hs) hs
        = run (deletePerson (Replied d false) (Replied d' false) id hs) hs
        /\ (h_user hs <> None ->
            forall q, In q (h_persons (run (deletePerson (Replied d false) (Replied d' true)
                                              id hs) hs))
                      <-> In q (h_persons hs) /\ Person.id q <> id))
  /\ Forall (fun h => h_user (run h hs) = h_user hs /\ h_loading (run h hs) = h_loading hs)
       [ addPerson reply data hs; updatePerson reply id data hs;
         deletePerson reply reply2 id hs; addRelation reply src tgt p hs;
         updatePersonPosition reply id pos hs ].
Proof.
  split; [|split; [|split]].
  - intros Hrefuse.
    destruct (mutators_refused hs reply reply2 data id src tgt p pos Hrefuse)
      as (H1 & H2 & _ & H4 & H5).
    now repeat split.
  - intros Hrefuse. unfold deletePerson.
    destruct (h_user hs) as [u|]; [|reflexivity].
    destruct Hrefuse as [Hu | Hnot]; [discriminate|].
    destruct reply as [|d [|]], reply2 as [|d' e']; try reflexivity.
    exfalso. apply Hnot. now exists d, d', e'.
  - intros d d'. unfold deletePerson. destruct (h_user hs) as [u|].
    + split; [reflexivity|]. intros _ q. cbn. now rewrite List.filter_In, eqb_false_iff.
    + split; [reflexivity|]. intros Hu. contradiction.
  - unfold addPerson, updatePerson, deletePerson, addRelation, updatePersonPosition.
    destruct hs as [ps rs [u|] l]; cbn [h_user]; [|now repeat constructor].
    destruct reply as [|[d|] [|]], reply2 as [|d2 e2]; now repeat constructor.
Qed.

Lemma hook_mutators_are_pessimistic_witness :
  run (deletePerson (Replied None true) (Replied None false) "p-marie" signedInHook)
      signedInHook = signedInHook
  /\ run (deletePerson (Replied None false) Threw "p-marie" signedInHook) signedInHook
     = signedInHook
  /\ run (addRelation (Replied None true) "p-jean" "p-marie" fort signedInHook) signedInHook
     = signedInHook
  /\ In jean (h_persons (run (deletePerson (Replied None false) (Replied None true)
                                "p-marie" signedInHook) signedInHook)).
Proof.
  destruct (hook_mutators_are_pessimistic signedInHook (Replied None true) (Replied None false)
              paulData "p-marie" "p-jean" "p-marie" fort (0, 0)%Z) as (Href & Hdel & Hign & _).
  destruct (hook_mutators_are_pessimistic signedInHook (Replied None false) Threw
              paulData "p-marie" "p-jean" "p-marie" fort (0, 0)%Z) as (_ & Hthrow & _).
  destruct Href as (_ & _ & Ha & _); [right; intros d; discriminate|].
  split; [|split; [|split; [exact Ha|]]].
  - apply Hdel. right. intros (d & d' & e & E & _). discriminate.
  - apply Hthrow. right. intros (d & d' & e & _ & E). discriminate.
  - destruct (Hign None None) as [_ Hin]. apply Hin; [discriminate|].
    split; [now right; left | discriminate].
Defined.

(** X21. Signing out empties the hook's store.  A mutator called after the
    sign-out, that is, rendered with the signed-out state, leaves the store
    empty whatever the remote replies.  A mutator called before the sign-out
    whose reply comes after it still applies its update: an [addPerson] the
    server accepted puts its person into the emptied store. *)
Theorem sign_out_empties_store `{JSNumber number} (hs : HookState number)
    (reply reply2 : Reply number) (data : PersonData number) (id src tgt : string)
    (p : Proximity) (pos : number * number) :
  (h_persons (run onSignedOut hs) = [] /\ h_relations (run onSignedOut hs) = []
   /\ h_user (run onSignedOut hs) = None)
  /\ Forall (fun h => run h (run onSignedOut hs) = run onSignedOut hs)
       [ addPerson reply data (run onSignedOut hs);
         updatePerson reply id data (run onSignedOut hs);
         deletePerson reply reply2 id (run onSignedOut hs);
         addRelation reply src tgt p (run onSignedOut hs);
         updatePersonPosition reply id pos (run onSignedOut hs) ]
  /\ (forall row, h_user hs <> None ->
        exists q, h_persons (run (addPerson (Replied (Some row) false) data hs)
                                 (run onSignedOut hs)) = [q]
                  /\ Person.firstName q = d_firstName data
                  /\ Person.lastName q = d_lastName data).
Proof.
  split; [now repeat split|]. split.
  - destruct (mutators_refused (run onSignedOut hs) reply reply2 data id src tgt p pos)
      as (H1 & H2 & H3 & H4 & H5); [now left|].
    now repeat constructor.
  - intros row Hu. unfold addPerson. destruct (h_user hs) as [u|]; [|contradiction].
    cbn. eexists. split; [reflexivity|]. now split.
Qed.

Lemma sign_out_empties_store_witness :
  exists q, h_persons (run (addPerson (Replied (Some (<["id" := JStr "p-9"]> ∅)) false)
                              paulData signedInHook)
                           (run onSignedOut signedInHook)) = [q]
            /\ Person.firstName q = "Paul".
Proof.
  destruct (sign_out_empties_store signedInHook Threw Threw paulData "a" "b" "c" fort (0, 0)%Z)
    as (_ & _ & Hstale).
  destruct (Hstale (<["id" := JStr "p-9"]> ∅)) as (q & E & Hf & _); [discriminate|].
  exists q. split; [exact E | exact Hf].
Defined.

(** ** The category filter *)

(** X22. The ticked categories combine as a union.  Ticking a category while
    another is already ticked hides no person that was shown; ticking the
    first category keeps, of the persons that were shown, exactly those that
    carry it. *)
Theorem category_filter_is_a_union `{JSNumber number} (cat : string) (s : State number)
    (p : Person.t number) :
  (categoryFilter s <> [] -> In p (filteredPersons s) ->
   In p (filteredPersons (run (onCategoryFilterChange cat true) s)))
  /\ (categoryFilter s = [] ->
      (In p (filteredPersons (run (onCategoryFilterChange cat true) s))
       <-> In p (filteredPersons s) /\ In cat (default [] (Person.categories p)))).
Proof.
  unfold filteredPersons.
  cbn [run onCategoryFilterChange segments fold_left setCategoryFilter toggle
       search proximityFilter categoryFilter persons].
  rewrite !List.filter_In, !keepPerson_spec. split.
  - intros Hne (Hp & Hpf & Hcf & Hterm). split; [exact Hp|]. split; [exact Hpf|].
    split; [|exact Hterm]. right.
    destruct Hcf as [E | (c & Hc & Hin)]; [contradiction|].
    exists c. split; [exact Hc|]. apply in_app_iff. now left.
  - intros ->. cbn [app]. split.
    + intros (Hp & Hpf & Hcf & Hterm).
      destruct Hcf as [E | (c & Hc & [<- | []])]; [discriminate|].
      split; [|exact Hc]. split; [exact Hp|]. split; [exact Hpf|]. split; [now left | exact Hterm].
    + intros ((Hp & Hpf & _ & Hterm) & Hcat).
      split; [exact Hp|]. split; [exact Hpf|]. split; [|exact Hterm].
      right. exists cat. split; [exact Hcat | now left].
Qed.

Lemma category_filter_is_a_union_witness :
  In marie (filteredPersons
              (run (onCategoryFilterChange "Investisseur" true)
                   (setCategoryFilter (fun _ => ["Advisor"]) twoPersons))).
Proof.
  destruct (category_filter_is_a_union "Investisseur"
              (setCategoryFilter (fun _ => ["Advisor"]) twoPersons) marie) as [Hwiden _].
  apply Hwiden; [discriminate | now left].
Defined.
